(** * The API controllers of the issuer node ([internal/api/server.go])

    A shallow embedding of the [Server] controllers: each controller is a
    program over the calls it makes to its collaborators (identity service,
    claims service, schema service, publisher gateway, package manager), so
    that "which collaborator is invoked, with what, and what is done with
    its answer" can be read off the program and proved about. *)

From Stdlib Require Import ZArith String Ascii List Lia.
From stdpp Require Import base option list strings pretty gmap.

Local Open Scope string_scope.
Local Open Scope Z_scope.

(** ** Go errors

    An [error] is a value made by [errors.New] (it has an identity of its own
    and nothing to unwrap), a wrapper around one other error ([fmt.Errorf]
    with one [%w]), or an error with several causes ([fmt.Errorf] with
    several [%w], [errors.Join], a type whose [Unwrap] returns a slice);
    each carries its own text.  The sentinel errors the controllers compare
    against are identities; [ErrOther n] stands for any error value that is
    none of them.  One error may match several sentinels. *)

Inductive ErrId : Type :=
| ErrWrongDIDMetada          (* services *)
| ErrJSONLdContext           (* services *)
| ErrProcessSchema           (* services *)
| ErrLoadingSchema           (* services *)
| ErrMalformedURL            (* services *)
| ErrClaimNotFound           (* services *)
| ErrClaimDoesNotExist       (* repositories *)
| ErrNoStatesToProcess       (* gateways *)
| ErrStateIsBeingProcessed   (* gateways *)
| ErrOther (n : nat).

#[global] Instance ErrId_eq_dec : EqDecision ErrId.
Proof. solve_decision. Defined.

#[warnings="-register-all"] Inductive error : Type :=
| errors_New (id : ErrId) (text : string)
| fmt_Errorf_w (text : string) (cause : error)
| errors_Join (text : string) (causes : list error).

(** [err.Error()] *)
Definition Error (e : error) : string :=
  match e with
  | errors_New _ text => text
  | fmt_Errorf_w text _ => text
  | errors_Join text _ => text
  end.

(** [errors.Is(err, target)]: walks the tree of wrapped errors, depth
    first, and holds as soon as one of them is [target]. *)
Fixpoint errors_Is (e : error) (target : ErrId) : bool :=
  match e with
  | errors_New id _ => bool_decide (id = target)
  | fmt_Errorf_w _ cause => errors_Is cause target
  | errors_Join _ causes => existsb (fun cause => errors_Is cause target) causes
  end.

(** The identities found in the tree of an error, in the order [errors.Is]
    visits them. *)
Fixpoint identities (e : error) : list ErrId :=
  match e with
  | errors_New id _ => [id]
  | fmt_Errorf_w _ cause => identities cause
  | errors_Join _ causes => concat (map identities causes)
  end.

(** A Go [(T, error)] result as the callers here use it: the value is only
    looked at when the error is nil. *)
Inductive result (T : Type) : Type :=
| Ok (v : T)
| Fail (err : error).
Arguments Ok {T} v.
Arguments Fail {T} err.

Definition ByteArray : Type := list Byte.byte.

(** [uint64(x)] of an [int64] value. *)
Definition uint64 (x : Z) : Z := x mod 2 ^ 64.

(** ** What the controllers use from other packages

    Types and functions of the libraries (go-iden3-core, uuid,
    go-merkletree-sql, iden3comm) and of the [ports] package, whose code is
    not part of this file.  They are parameters of the development. *)

Class External : Type := {
  (* context.Context *)
  Ctx : Type;
  (* values of types the controllers only pass along *)
  Any : Type;
  (* core.DID and core.ParseDID *)
  DID : Type;
  ParseDID : string -> result DID;
  (* uuid.UUID, uuid.Parse, UUID.String *)
  UUID : Type;
  uuid_Parse : string -> result UUID;
  UUID_String : UUID -> string;
  (* merkletree.Hash and its MarshalText *)
  Hash : Type;
  MarshalText : Hash -> ByteArray * option error;
  (* domain.Claim *)
  Claim : Type;
  (* ports.CreateClaimRequest and its constructor *)
  ports_CreateClaimRequest : Type;
  NewCreateClaimRequest :
    DID -> string -> gmap string Any -> option Z -> string -> option Z ->
    option string -> option string -> ports_CreateClaimRequest;
  (* ports.Filter and its constructor *)
  ports_Filter : Type;
  NewClaimsFilter :
    option string -> option string -> option string -> option string ->
    option bool -> option bool -> result ports_Filter;
  (* iden3comm.BasicMessage, ports.AgentRequest and its constructor *)
  BasicMessage : Type;
  ports_AgentRequest : Type;
  NewAgentRequest : BasicMessage -> result ports_AgentRequest;
  (* packers.MediaTypeZKPMessage *)
  MediaTypeZKPMessage : string
}.

Section Controllers.
Context `{X : External}.

(** ** Domain values returned by the collaborators

    Where a collaborator returns a pointer together with a nil error
    ([*domain.Identity], [*verifiable.RevocationStatus],
    [*verifiable.W3CCredential], ...), the value pointed to is modelled;
    the one pointer the controllers test against nil themselves,
    [Proof.NodeAux], is an [option]. *)

Record domain_IdentityState : Type := {
  st_BlockNumber : Any;
  st_BlockTimestamp : Any;
  st_ClaimsTreeRoot : Any;
  st_CreatedAt : Any;
  st_ModifiedAt : Any;
  st_PreviousState : Any;
  st_RevocationTreeRoot : Any;
  st_RootOfRoots : Any;
  st_State : Any;
  st_Status : string;
  st_TxID : Any
}.

Record domain_Identity : Type := {
  id_Identifier : string;
  id_State : domain_IdentityState
}.

(** [merkletree.NodeAux] and [merkletree.Proof].  [AllSiblings] is the list
    the method of that name returns. *)
Record NodeAux : Type := {
  Key : Hash;
  Value : Hash
}.

Record Proof : Type := {
  Existence : bool;
  proof_NodeAux : option NodeAux;     (* a pointer: nil is [None] *)
  AllSiblings : list Hash
}.

Record TreeState : Type := {
  ts_State : option string;
  ts_RootOfRoots : option string;
  ts_ClaimsTreeRoot : option string;
  ts_RevocationTreeRoot : option string
}.

(** [verifiable.RevocationStatus] *)
Record RevocationStatus : Type := {
  Issuer : TreeState;
  MTP : Proof
}.

(** [verifiable.W3CCredential] *)
Record W3CCredential : Type := {
  w3c_ID : string;
  w3c_Context : list string;
  w3c_Type : list string;
  w3c_Expiration : option Any;
  w3c_IssuanceDate : option Any;
  w3c_CredentialSubject : gmap string Any;
  w3c_CredentialStatus : option Any;
  w3c_Issuer : string;
  w3c_CredentialSchema_ID : string;
  w3c_CredentialSchema_Type : string;
  w3c_Proof : list Any
}.

Record domain_PublishedState : Type := {
  ps_ClaimsTreeRoot : Any;
  ps_RevocationTreeRoot : Any;
  ps_RootOfRoots : Any;
  ps_State : Any;
  ps_TxID : Any
}.

Record domain_Agent : Type := {
  ag_Body : Any;
  ag_From : string;
  ag_ID : string;
  ag_ThreadID : string;
  ag_To : string;
  ag_Typ : string;
  ag_Type : string
}.

Record CreateClaimResponse : Type := {
  ccr_ID : UUID
}.

(** ** Calls to the collaborators

    One constructor per method the controllers call on a field of [Server];
    [Answer] is what the method returns. *)

Inductive Call : Type :=
| IdentityService_Create (ctx : Ctx) (method blockchain network serverUrl : string)
| IdentityService_Get (ctx : Ctx)
| ClaimsService_CreateClaim (ctx : Ctx) (req : ports_CreateClaimRequest)
| ClaimsService_Revoke (ctx : Ctx) (id : string) (nonce : Z) (description : string)
| ClaimsService_GetRevocationStatus (ctx : Ctx) (id : string) (nonce : Z)
| ClaimsService_GetByID (ctx : Ctx) (did : DID) (id : UUID)
| ClaimsService_GetAll (ctx : Ctx) (did : DID) (filter : ports_Filter)
| ClaimsService_Agent (ctx : Ctx) (req : ports_AgentRequest)
| SchemaService_FromClaimModelToW3CCredential (claim : Claim)
| Publisher_PublishState (ctx : Ctx) (did : DID)
| PackageManager_UnpackWithType (mediaType : string) (envelope : ByteArray)
| Health_Status.

Definition Answer (c : Call) : Type :=
  match c with
  | IdentityService_Create _ _ _ _ _ => result domain_Identity
  | IdentityService_Get _ => result (list string)
  | ClaimsService_CreateClaim _ _ => result CreateClaimResponse
  | ClaimsService_Revoke _ _ _ _ => option error
  | ClaimsService_GetRevocationStatus _ _ _ => result RevocationStatus
  | ClaimsService_GetByID _ _ _ => result Claim
  | ClaimsService_GetAll _ _ _ => result (list W3CCredential)
  | ClaimsService_Agent _ _ => result domain_Agent
  | SchemaService_FromClaimModelToW3CCredential _ => result W3CCredential
  | Publisher_PublishState _ _ => result domain_PublishedState
  | PackageManager_UnpackWithType _ _ => result BasicMessage
  | Health_Status => Any
  end.

(** A controller run: it returns, or it calls a collaborator and goes on
    with the answer. *)
Inductive Prog (R : Type) : Type :=
| Ret (r : R)
| Do (c : Call) (k : Answer c -> Prog R).
Arguments Ret {R} r.
Arguments Do {R} c k.

Definition call (c : Call) : Prog (Answer c) := Do c Ret.

Fixpoint bind {A B : Type} (p : Prog A) (f : A -> Prog B) : Prog B :=
  match p with
  | Ret a => f a
  | Do c k => Do c (fun a => bind (k a) f)
  end.

(** The collaborators as the controllers see them: each call is answered
    and may change the world [W] behind them (database, chain, ...). *)
Definition Collaborators (W : Type) : Type := forall c : Call, W -> Answer c * W.

(** Running a controller against collaborators: the result, the world
    afterwards and the calls that were made, in order. *)
Fixpoint run {W R : Type} (h : Collaborators W) (p : Prog R) (w : W)
  : R * W * list Call :=
  match p with
  | Ret r => (r, w, [])
  | Do c k =>
      let '(a, w1) := h c w in
      let '(r, w2, tr) := run h (k a) w1 in
      (r, w2, c :: tr)
  end.

(** Every way the program can end satisfies [P], whatever is answered. *)
Inductive Always {R : Type} (P : R -> Prop) : Prog R -> Prop :=
| Always_Ret r : P r -> Always P (Ret r)
| Always_Do c k : (forall a, Always P (k a)) -> Always P (Do c k).


Notation "x <- c ;; k" := (bind c (fun x => k))
  (at level 100, c at next level, right associativity).

(** ** Request and response objects of the generated API *)

Record N400JSONResponse : Type := N400 { n400_Message : string }.
Record N404JSONResponse : Type := N404 { n404_Message : string }.
Record N422JSONResponse : Type := N422 { n422_Message : string }.
Record N500JSONResponse : Type := N500 { n500_Message : string }.

Record Configuration : Type := { ServerUrl : string }.

(** The collaborators of [Server] are reached through [Call]; what is left
    of the struct is its configuration. *)
Record Server : Type := { cfg : Configuration }.

Record DidMetadata : Type := {
  Method : string;
  Blockchain : string;
  Network : string
}.
Record CreateIdentityRequestObject : Type := {
  ci_Body_DidMetadata : DidMetadata
}.

Record IdentityState : Type := {
  BlockNumber : Any;
  BlockTimestamp : Any;
  ClaimsTreeRoot : Any;
  CreatedAt : Any;
  ModifiedAt : Any;
  PreviousState : Any;
  RevocationTreeRoot : Any;
  RootOfRoots : Any;
  State : Any;
  Status : string;
  TxID : Any
}.

Inductive CreateIdentityResponseObject : Type :=
| CreateIdentity201JSONResponse (Identifier : option string) (State : option IdentityState)
| CreateIdentity400JSONResponse (r : N400JSONResponse).

Record CreateClaimRequest : Type := {
  CredentialSchema : string;
  CredentialSubject : gmap string Any;
  Expiration : option Z;
  MerklizedRootPosition : option string;
  SubjectPosition : option string;
  Type_ : string;
  Version : option Z
}.
Record CreateClaimRequestObject : Type := {
  cc_Identifier : string;
  cc_Body : CreateClaimRequest
}.

Inductive CreateClaimResponseObject : Type :=
| CreateClaim201JSONResponse (Id : string)
| CreateClaim400JSONResponse (r : N400JSONResponse)
| CreateClaim422JSONResponse (r : N422JSONResponse)
| CreateClaim500JSONResponse (r : N500JSONResponse).

Record RevokeClaimRequestObject : Type := {
  rc_Identifier : string;
  rc_Nonce : Z                        (* int64 *)
}.

Inductive RevokeClaimResponseObject : Type :=
| RevokeClaim202JSONResponse (Message : string)
| RevokeClaim404JSONResponse (r : N404JSONResponse)
| RevokeClaim500JSONResponse (r : N500JSONResponse).

Record GetRevocationStatusRequestObject : Type := {
  rs_Identifier : string;
  rs_Nonce : Z                        (* int64 *)
}.

Record RevocationStatusResponse_Issuer : Type := {
  iss_ClaimsTreeRoot : option string;
  iss_RevocationTreeRoot : option string;
  iss_RootOfRoots : option string;
  iss_State : option string
}.
Record RevocationStatusResponse_NodeAux : Type := {
  aux_Key : option ByteArray;
  aux_Value : option ByteArray
}.
Record RevocationStatusResponse_Mtp : Type := {
  mtp_Existence : bool;
  mtp_NodeAux : option RevocationStatusResponse_NodeAux;   (* omitted when nil *)
  mtp_Siblings : option (list ByteArray)
}.
Record RevocationStatusResponse : Type := {
  resp_Issuer : RevocationStatusResponse_Issuer;
  resp_Mtp : RevocationStatusResponse_Mtp
}.

Inductive GetRevocationStatusResponseObject : Type :=
| GetRevocationStatus200JSONResponse (r : RevocationStatusResponse)
| GetRevocationStatus500JSONResponse (r : N500JSONResponse).

Record GetClaimRequestObject : Type := {
  gc_Identifier : string;
  gc_Id : string
}.

Record GetClaimResponse : Type := {
  Context_ : list string;
  CredentialSchema_ID : string;
  CredentialSchema_Type : string;
  CredentialStatus : option Any;
  CredentialSubject_ : gmap string Any;
  Expiration_ : option Any;
  Id : string;
  IssuanceDate : option Any;
  Issuer_ : string;
  Proof_ : list Any;
  Type__ : list string
}.

Inductive GetClaimResponseObject : Type :=
| GetClaim200JSONResponse (r : GetClaimResponse)
| GetClaim400JSONResponse (r : N400JSONResponse)
| GetClaim404JSONResponse (r : N404JSONResponse)
| GetClaim500JSONResponse (r : N500JSONResponse).

Record GetClaimsParams : Type := {
  SchemaHash : option string;
  SchemaType : option string;
  Subject : option string;
  QueryField : option string;
  Self : option bool;
  Revoked : option bool
}.
Record GetClaimsRequestObject : Type := {
  gcs_Identifier : string;
  gcs_Params : GetClaimsParams
}.

Inductive GetClaimsResponseObject : Type :=
| GetClaims200JSONResponse (r : list GetClaimResponse)
| GetClaims400JSONResponse (r : N400JSONResponse)
| GetClaims500JSONResponse (r : N500JSONResponse).

Inductive GetIdentitiesResponseObject : Type :=
| GetIdentities200JSONResponse (r : list string)
| GetIdentities500JSONResponse (r : N500JSONResponse).

Record AgentRequestObject : Type := {
  ag_req_Body : option string         (* *string: nil is [None] *)
}.

Record AgentResponse : Type := {
  ar_Body : Any;
  ar_From : string;
  ar_Id : string;
  ar_ThreadID : string;
  ar_To : string;
  ar_Typ : string;
  ar_Type : string
}.

Inductive AgentResponseObject : Type :=
| Agent200JSONResponse (r : AgentResponse)
| Agent400JSONResponse (r : N400JSONResponse).

Record PublishIdentityStateRequestObject : Type := {
  pis_Identifier : string
}.

Record PublishIdentityStateResponse : Type := {
  pub_ClaimsTreeRoot : Any;
  pub_RevocationTreeRoot : Any;
  pub_RootOfRoots : Any;
  pub_State : Any;
  pub_TxID : Any
}.

Inductive PublishIdentityStateResponseObject : Type :=
| PublishIdentityState200JSONResponse (Message : string)
| PublishIdentityState202JSONResponse (r : PublishIdentityStateResponse)
| PublishIdentityState400JSONResponse (r : N400JSONResponse)
| PublishIdentityState500JSONResponse (r : N500JSONResponse).

Inductive HealthResponseObject : Type :=
| Health200JSONResponse (r : Any).

(** What a controller returns: the response object (nil is [None]) and the
    Go error (nil is [None]). *)
Definition Returned (R : Type) : Type := (option R * option error)%type.

(** [return resp, nil] *)
Definition respond {R : Type} (resp : R) : Prog (Returned R) := Ret (Some resp, None).

(** ** The HTTP status each response object is written with (the number in
    the name of its generated type). *)

Definition CreateIdentity_status (r : CreateIdentityResponseObject) : Z :=
  match r with
  | CreateIdentity201JSONResponse _ _ => 201
  | CreateIdentity400JSONResponse _ => 400
  end.

Definition CreateClaim_status (r : CreateClaimResponseObject) : Z :=
  match r with
  | CreateClaim201JSONResponse _ => 201
  | CreateClaim400JSONResponse _ => 400
  | CreateClaim422JSONResponse _ => 422
  | CreateClaim500JSONResponse _ => 500
  end.

Definition RevokeClaim_status (r : RevokeClaimResponseObject) : Z :=
  match r with
  | RevokeClaim202JSONResponse _ => 202
  | RevokeClaim404JSONResponse _ => 404
  | RevokeClaim500JSONResponse _ => 500
  end.

Definition GetRevocationStatus_status (r : GetRevocationStatusResponseObject) : Z :=
  match r with
  | GetRevocationStatus200JSONResponse _ => 200
  | GetRevocationStatus500JSONResponse _ => 500
  end.

Definition GetClaim_status (r : GetClaimResponseObject) : Z :=
  match r with
  | GetClaim200JSONResponse _ => 200
  | GetClaim400JSONResponse _ => 400
  | GetClaim404JSONResponse _ => 404
  | GetClaim500JSONResponse _ => 500
  end.

Definition GetClaims_status (r : GetClaimsResponseObject) : Z :=
  match r with
  | GetClaims200JSONResponse _ => 200
  | GetClaims400JSONResponse _ => 400
  | GetClaims500JSONResponse _ => 500
  end.

Definition GetIdentities_status (r : GetIdentitiesResponseObject) : Z :=
  match r with
  | GetIdentities200JSONResponse _ => 200
  | GetIdentities500JSONResponse _ => 500
  end.

Definition Agent_status (r : AgentResponseObject) : Z :=
  match r with
  | Agent200JSONResponse _ => 200
  | Agent400JSONResponse _ => 400
  end.

Definition PublishIdentityState_status (r : PublishIdentityStateResponseObject) : Z :=
  match r with
  | PublishIdentityState200JSONResponse _ => 200
  | PublishIdentityState202JSONResponse _ => 202
  | PublishIdentityState400JSONResponse _ => 400
  | PublishIdentityState500JSONResponse _ => 500
  end.

(** ** The controllers *)

Definition Health (_ : Ctx) : Prog (Returned HealthResponseObject) :=
  st <- call Health_Status ;;
  respond (Health200JSONResponse st).

Definition GetDocumentation (_ : Ctx) : Prog (Returned unit) := Ret (None, None).

Definition GetYaml (_ : Ctx) : Prog (Returned unit) := Ret (None, None).

Definition CreateIdentity (s : Server) (ctx : Ctx) (request : CreateIdentityRequestObject)
  : Prog (Returned CreateIdentityResponseObject) :=
  let method := Method (ci_Body_DidMetadata request) in
  let blockchain := Blockchain (ci_Body_DidMetadata request) in
  let network := Network (ci_Body_DidMetadata request) in
  r <- call (IdentityService_Create ctx method blockchain network (ServerUrl (cfg s))) ;;
  match r with
  | Fail err =>
      if errors_Is err ErrWrongDIDMetada
      then respond (CreateIdentity400JSONResponse (N400 (Error err)))
      else Ret (None, Some err)
  | Ok identity =>
      respond (CreateIdentity201JSONResponse
        (Some (id_Identifier identity))
        (Some {| BlockNumber := st_BlockNumber (id_State identity);
                 BlockTimestamp := st_BlockTimestamp (id_State identity);
                 ClaimsTreeRoot := st_ClaimsTreeRoot (id_State identity);
                 CreatedAt := st_CreatedAt (id_State identity);
                 ModifiedAt := st_ModifiedAt (id_State identity);
                 PreviousState := st_PreviousState (id_State identity);
                 RevocationTreeRoot := st_RevocationTreeRoot (id_State identity);
                 RootOfRoots := st_RootOfRoots (id_State identity);
                 State := st_State (id_State identity);
                 Status := st_Status (id_State identity);
                 TxID := st_TxID (id_State identity) |}))
  end.

Definition CreateClaim (ctx : Ctx) (request : CreateClaimRequestObject)
  : Prog (Returned CreateClaimResponseObject) :=
  match ParseDID (cc_Identifier request) with
  | Fail err => respond (CreateClaim400JSONResponse (N400 (Error err)))
  | Ok did =>
      let body := cc_Body request in
      let req := NewCreateClaimRequest did (CredentialSchema body)
                   (CredentialSubject body) (Expiration body) (Type_ body)
                   (Version body) (SubjectPosition body)
                   (MerklizedRootPosition body) in
      r <- call (ClaimsService_CreateClaim ctx req) ;;
      match r with
      | Fail err =>
          if errors_Is err ErrJSONLdContext
          then respond (CreateClaim400JSONResponse (N400 (Error err)))
          else if errors_Is err ErrProcessSchema
          then respond (CreateClaim400JSONResponse (N400 (Error err)))
          else if errors_Is err ErrLoadingSchema
          then respond (CreateClaim422JSONResponse (N422 (Error err)))
          else if errors_Is err ErrMalformedURL
          then respond (CreateClaim400JSONResponse (N400 (Error err)))
          else respond (CreateClaim500JSONResponse (N500 (Error err)))
      | Ok resp => respond (CreateClaim201JSONResponse (UUID_String (ccr_ID resp)))
      end
  end.

Definition RevokeClaim (ctx : Ctx) (request : RevokeClaimRequestObject)
  : Prog (Returned RevokeClaimResponseObject) :=
  r <- call (ClaimsService_Revoke ctx (rc_Identifier request)
               (uint64 (rc_Nonce request)) "") ;;
  match r with
  | Some err =>
      if errors_Is err ErrClaimDoesNotExist
      then respond (RevokeClaim404JSONResponse (N404 "the claim does not exist"))
      else respond (RevokeClaim500JSONResponse (N500 (Error err)))
  | None => respond (RevokeClaim202JSONResponse "claim revocation request sent")
  end.

(** The loop over [rs.MTP.AllSiblings()]: [siblings = append(siblings, sb)]. *)
Definition siblings_loop (all : list Hash) : list ByteArray :=
  foldl (fun siblings s => let sb := (MarshalText s).1 in (siblings ++ [sb])%list) [] all.

(** The body of [GetRevocationStatus] after the error check: the response
    starts as the zero value and is filled in field by field; [NodeAux]
    stays nil unless the proof has one. *)
Definition assemble (rs : RevocationStatus) : RevocationStatusResponse :=
  let response_Issuer :=
    {| iss_State := ts_State (Issuer rs);
       iss_RevocationTreeRoot := ts_RevocationTreeRoot (Issuer rs);
       iss_RootOfRoots := ts_RootOfRoots (Issuer rs);
       iss_ClaimsTreeRoot := ts_ClaimsTreeRoot (Issuer rs) |} in
  let response_Mtp_NodeAux :=
    match proof_NodeAux (MTP rs) with
    | Some nodeAux =>
        let key := (MarshalText (Key nodeAux)).1 in
        let value := (MarshalText (Value nodeAux)).1 in
        Some {| aux_Key := Some key; aux_Value := Some value |}
    | None => None
    end in
  let siblings := siblings_loop (AllSiblings (MTP rs)) in
  {| resp_Issuer := response_Issuer;
     resp_Mtp := {| mtp_Existence := Existence (MTP rs);
                    mtp_NodeAux := response_Mtp_NodeAux;
                    mtp_Siblings := Some siblings |} |}.

Definition GetRevocationStatus (ctx : Ctx) (request : GetRevocationStatusRequestObject)
  : Prog (Returned GetRevocationStatusResponseObject) :=
  r <- call (ClaimsService_GetRevocationStatus ctx (rs_Identifier request)
               (uint64 (rs_Nonce request))) ;;
  match r with
  | Fail err => respond (GetRevocationStatus500JSONResponse (N500 (Error err)))
  | Ok rs =>
      (* [return response, err] with [err] nil at this point *)
      Ret (Some (GetRevocationStatus200JSONResponse (assemble rs)), None)
  end.

Definition toGetClaim200Response (claim : W3CCredential) : GetClaimResponse :=
  {| Context_ := w3c_Context claim;
     CredentialSchema_ID := w3c_CredentialSchema_ID claim;
     CredentialSchema_Type := w3c_CredentialSchema_Type claim;
     CredentialStatus := w3c_CredentialStatus claim;
     CredentialSubject_ := w3c_CredentialSubject claim;
     Expiration_ := w3c_Expiration claim;
     Id := w3c_ID claim;
     IssuanceDate := w3c_IssuanceDate claim;
     Issuer_ := w3c_Issuer claim;
     Proof_ := w3c_Proof claim;
     Type__ := w3c_Type claim |}.

(** The zero value of [GetClaimResponse], which [make] fills the slice with. *)
Definition GetClaimResponse_zero : GetClaimResponse :=
  {| Context_ := [];
     CredentialSchema_ID := "";
     CredentialSchema_Type := "";
     CredentialStatus := None;
     CredentialSubject_ := ∅;
     Expiration_ := None;
     Id := "";
     IssuanceDate := None;
     Issuer_ := "";
     Proof_ := [];
     Type__ := [] |}.

(** [response := make(.., len(claims)); for i := range claims { response[i] = .. }] *)
Definition toGetClaims200Response (claims : list W3CCredential) : list GetClaimResponse :=
  let response := replicate (length claims) GetClaimResponse_zero in
  foldl (fun response i =>
           match claims !! i with
           | Some claim => <[i := toGetClaim200Response claim]> response
           | None => response
           end)
        response (seq 0 (length claims)).

Definition GetClaim (ctx : Ctx) (request : GetClaimRequestObject)
  : Prog (Returned GetClaimResponseObject) :=
  if decide (gc_Identifier request = "")
  then respond (GetClaim400JSONResponse (N400 "invalid did, can not be empty"))
  else
    match ParseDID (gc_Identifier request) with
    | Fail _ => respond (GetClaim400JSONResponse (N400 "invalid did"))
    | Ok did =>
        if decide (gc_Id request = "")
        then respond (GetClaim400JSONResponse (N400 "can not proceed with an empty claim id"))
        else
          match uuid_Parse (gc_Id request) with
          | Fail _ => respond (GetClaim400JSONResponse (N400 "invalid claim id"))
          | Ok clID =>
              r <- call (ClaimsService_GetByID ctx did clID) ;;
              match r with
              | Fail err =>
                  if errors_Is err ErrClaimNotFound
                  then respond (GetClaim404JSONResponse (N404 (Error err)))
                  else respond (GetClaim500JSONResponse (N500 (Error err)))
              | Ok claim =>
                  r2 <- call (SchemaService_FromClaimModelToW3CCredential claim) ;;
                  match r2 with
                  | Fail _ => respond (GetClaim500JSONResponse (N500 "invalid claim format"))
                  | Ok w3c => respond (GetClaim200JSONResponse (toGetClaim200Response w3c))
                  end
              end
          end
    end.

Definition GetClaims (ctx : Ctx) (request : GetClaimsRequestObject)
  : Prog (Returned GetClaimsResponseObject) :=
  if decide (gcs_Identifier request = "")
  then respond (GetClaims400JSONResponse (N400 "invalid did, can not be empty"))
  else
    match ParseDID (gcs_Identifier request) with
    | Fail _ => respond (GetClaims400JSONResponse (N400 "invalid did"))
    | Ok did =>
        let params := gcs_Params request in
        match NewClaimsFilter (SchemaHash params) (SchemaType params) (Subject params)
                (QueryField params) (Self params) (Revoked params) with
        | Fail err => respond (GetClaims400JSONResponse (N400 (Error err)))
        | Ok filter =>
            r <- call (ClaimsService_GetAll ctx did filter) ;;
            match r with
            | Fail _ =>
                respond (GetClaims500JSONResponse (N500
                  "there was an internal error trying to retrieve claims for the requested identifier"))
            | Ok claims => respond (GetClaims200JSONResponse (toGetClaims200Response claims))
            end
        end
    end.

Definition GetIdentities (ctx : Ctx) : Prog (Returned GetIdentitiesResponseObject) :=
  r <- call (IdentityService_Get ctx) ;;
  match r with
  | Fail err => respond (GetIdentities500JSONResponse (N500 (Error err)))
  | Ok response => respond (GetIdentities200JSONResponse response)
  end.

Definition Agent (ctx : Ctx) (request : AgentRequestObject)
  : Prog (Returned AgentResponseObject) :=
  match ag_req_Body request with
  | None => respond (Agent400JSONResponse (N400 "can not proceed with an empty request"))
  | Some body =>
      if decide (body = "")
      then respond (Agent400JSONResponse (N400 "can not proceed with an empty request"))
      else
        r <- call (PackageManager_UnpackWithType MediaTypeZKPMessage
                     (list_byte_of_string body)) ;;
        match r with
        | Fail _ => respond (Agent400JSONResponse (N400 "can not proceed with the given request"))
        | Ok basicMessage =>
            match NewAgentRequest basicMessage with
            | Fail err => respond (Agent400JSONResponse (N400 (Error err)))
            | Ok req =>
                r2 <- call (ClaimsService_Agent ctx req) ;;
                match r2 with
                | Fail err => respond (Agent400JSONResponse (N400 (Error err)))
                | Ok agent =>
                    respond (Agent200JSONResponse
                      {| ar_Body := ag_Body agent;
                         ar_From := ag_From agent;
                         ar_Id := ag_ID agent;
                         ar_ThreadID := ag_ThreadID agent;
                         ar_To := ag_To agent;
                         ar_Typ := ag_Typ agent;
                         ar_Type := ag_Type agent |})
                end
            end
        end
  end.

Definition PublishIdentityState (ctx : Ctx) (request : PublishIdentityStateRequestObject)
  : Prog (Returned PublishIdentityStateResponseObject) :=
  match ParseDID (pis_Identifier request) with
  | Fail _ => respond (PublishIdentityState400JSONResponse (N400 "invalid did"))
  | Ok did =>
      r <- call (Publisher_PublishState ctx did) ;;
      match r with
      | Fail err =>
          if errors_Is err ErrNoStatesToProcess || errors_Is err ErrStateIsBeingProcessed
          then respond (PublishIdentityState200JSONResponse (Error err))
          else respond (PublishIdentityState500JSONResponse (N500 (Error err)))
      | Ok publishedState =>
          respond (PublishIdentityState202JSONResponse
            {| pub_ClaimsTreeRoot := ps_ClaimsTreeRoot publishedState;
               pub_RevocationTreeRoot := ps_RevocationTreeRoot publishedState;
               pub_RootOfRoots := ps_RootOfRoots publishedState;
               pub_State := ps_State publishedState;
               pub_TxID := ps_TxID publishedState |})
      end
  end.

(** ** Names for the calls and for the answers to a failing collaborator *)

(** The canonical text of a tree element, as the controllers take it
    ([sb, _ := s.MarshalText()]). *)
Definition encode (s : Hash) : ByteArray := (MarshalText s).1.

(** The call [CreateClaim] makes for a request whose identifier parsed to
    [did]. *)
Definition CreateClaim_call (ctx : Ctx) (request : CreateClaimRequestObject) (did : DID)
  : Call :=
  ClaimsService_CreateClaim ctx
    (NewCreateClaimRequest did (CredentialSchema (cc_Body request))
       (CredentialSubject (cc_Body request)) (Expiration (cc_Body request))
       (Type_ (cc_Body request)) (Version (cc_Body request))
       (SubjectPosition (cc_Body request))
       (MerklizedRootPosition (cc_Body request))).

Definition Revoke_call (ctx : Ctx) (request : RevokeClaimRequestObject) : Call :=
  ClaimsService_Revoke ctx (rc_Identifier request) (uint64 (rc_Nonce request)) "".

Definition GetRevocationStatus_call (ctx : Ctx) (request : GetRevocationStatusRequestObject)
  : Call :=
  ClaimsService_GetRevocationStatus ctx (rs_Identifier request) (uint64 (rs_Nonce request)).

Definition Unpack_call (body : string) : Call :=
  PackageManager_UnpackWithType MediaTypeZKPMessage (list_byte_of_string body).

(** The response [CreateClaim] gives to an error of the claims service. *)
Definition CreateClaim_on_error (err : error) : CreateClaimResponseObject :=
  if errors_Is err ErrJSONLdContext then CreateClaim400JSONResponse (N400 (Error err))
  else if errors_Is err ErrProcessSchema then CreateClaim400JSONResponse (N400 (Error err))
  else if errors_Is err ErrLoadingSchema then CreateClaim422JSONResponse (N422 (Error err))
  else if errors_Is err ErrMalformedURL then CreateClaim400JSONResponse (N400 (Error err))
  else CreateClaim500JSONResponse (N500 (Error err)).

Definition RevokeClaim_on_error (err : error) : RevokeClaimResponseObject :=
  if errors_Is err ErrClaimDoesNotExist
  then RevokeClaim404JSONResponse (N404 "the claim does not exist")
  else RevokeClaim500JSONResponse (N500 (Error err)).

Definition GetClaim_on_error (err : error) : GetClaimResponseObject :=
  if errors_Is err ErrClaimNotFound
  then GetClaim404JSONResponse (N404 (Error err))
  else GetClaim500JSONResponse (N500 (Error err)).

Definition PublishIdentityState_on_error (err : error) : PublishIdentityStateResponseObject :=
  if errors_Is err ErrNoStatesToProcess || errors_Is err ErrStateIsBeingProcessed
  then PublishIdentityState200JSONResponse (Error err)
  else PublishIdentityState500JSONResponse (N500 (Error err)).

End Controllers.

Arguments Ret {X R} r.
Arguments Do {X R} c k.

Notation "x <- c ;; k" := (bind c (fun x => k))
  (at level 100, c at next level, right associativity).

(** ** Predicates used in the statements *)

(** A response object together with a nil Go error. *)
Definition structured {R : Type} (r : Returned R) : Prop :=
  exists resp, r = (Some resp, None).

Ltac always_structured :=
  repeat first
    [ apply Always_Ret; eexists; reflexivity
    | apply Always_Do; intros ?
    | progress cbn [bind call respond]
    | case_match ].

(** The spec's "empty or whitespace-only" raw message, in its own words:
    nothing but blanks (space, tab, line feed, vertical tab, form feed,
    carriage return), possibly nothing at all. *)
Definition is_blank_char (a : ascii) : bool :=
  match N_of_ascii a with
  | 32%N | 9%N | 10%N | 11%N | 12%N | 13%N => true
  | _ => false
  end.

Fixpoint spec_empty_or_whitespace (s : string) : bool :=
  match s with
  | EmptyString => true
  | String a rest => is_blank_char a && spec_empty_or_whitespace rest
  end.

(** ** Concrete libraries and collaborators, for running the controllers *)

Module Demo.

(** A stand-in for [core.ParseDID] that only looks at the prefix. *)
Definition parse_prefix (s : string) : result string :=
  if String.prefix "did:" s then Ok s
  else Fail (errors_New (ErrOther 0) "did must start with did:").

Definition parse_length (s : string) : result string :=
  if decide (String.length s = 36%nat) then Ok s
  else Fail (errors_New (ErrOther 1) "invalid UUID length").

Definition decimal_text (h : Z) : ByteArray * option error :=
  (list_byte_of_string (pretty h), None).

Definition libs : External :=
  {| Ctx := unit;
     Any := string;
     DID := string;
     ParseDID := parse_prefix;
     UUID := string;
     uuid_Parse := parse_length;
     UUID_String := fun u => u;
     Hash := Z;
     MarshalText := decimal_text;
     Claim := string;
     ports_CreateClaimRequest := string * string;
     NewCreateClaimRequest := fun did schema _ _ _ _ _ _ => (did, schema);
     ports_Filter := unit;
     NewClaimsFilter := fun _ _ _ _ _ _ => Ok tt;
     BasicMessage := ByteArray;
     ports_AgentRequest := ByteArray;
     NewAgentRequest := fun m => Ok m;
     MediaTypeZKPMessage := "application/iden3-zkp-json" |}.
#[local] Existing Instance libs.

Definition credential (id : string) : @W3CCredential libs :=
  {| w3c_ID := id;
     w3c_Context := ["https://www.w3.org/2018/credentials/v1"];
     w3c_Type := ["VerifiableCredential"];
     w3c_Expiration := None;
     w3c_IssuanceDate := Some "2023-01-01";
     w3c_CredentialSubject := {[ "id" := "did:x" ]};
     w3c_CredentialStatus := None;
     w3c_Issuer := "did:issuer";
     w3c_CredentialSchema_ID := "https://schema";
     w3c_CredentialSchema_Type := "JsonSchemaValidator2018";
     w3c_Proof := [] |}.

Definition state : @domain_IdentityState libs :=
  {| st_BlockNumber := ""; st_BlockTimestamp := ""; st_ClaimsTreeRoot := "";
     st_CreatedAt := ""; st_ModifiedAt := ""; st_PreviousState := "";
     st_RevocationTreeRoot := ""; st_RootOfRoots := ""; st_State := "";
     st_Status := "created"; st_TxID := "" |}.

Definition roots : TreeState :=
  {| ts_State := Some "s"; ts_RootOfRoots := Some "r";
     ts_ClaimsTreeRoot := Some "c"; ts_RevocationTreeRoot := Some "v" |}.

Definition status (p : @Proof libs) : @RevocationStatus libs :=
  {| Issuer := roots; MTP := p |}.

Definition agent : @domain_Agent libs :=
  {| ag_Body := "{}"; ag_From := "did:issuer"; ag_ID := "1"; ag_ThreadID := "t";
     ag_To := "did:holder"; ag_Typ := "application/iden3comm-plain-json";
     ag_Type := "https://iden3-communication.io/credentials/1.0/issuance-response" |}.

Definition published : @domain_PublishedState libs :=
  {| ps_ClaimsTreeRoot := "c"; ps_RevocationTreeRoot := "v"; ps_RootOfRoots := "r";
     ps_State := "s"; ps_TxID := "0x1" |}.

(** Collaborators that fail every call with [e]; the world counts the
    calls made. *)
Definition failing (e : error) : @Collaborators libs nat :=
  fun c w =>
    (match c return @Answer libs c with
     | IdentityService_Create _ _ _ _ _ => Fail e
     | IdentityService_Get _ => Fail e
     | ClaimsService_CreateClaim _ _ => Fail e
     | ClaimsService_Revoke _ _ _ _ => Some e
     | ClaimsService_GetRevocationStatus _ _ _ => Fail e
     | ClaimsService_GetByID _ _ _ => Fail e
     | ClaimsService_GetAll _ _ _ => Fail e
     | ClaimsService_Agent _ _ => Fail e
     | SchemaService_FromClaimModelToW3CCredential _ => Fail e
     | Publisher_PublishState _ _ => Fail e
     | PackageManager_UnpackWithType _ _ => Fail e
     | Health_Status => "down"
     end, S w).

(** Collaborators that answer every call successfully; the revocation
    status carries the proof [p]. *)
Definition working (p : @Proof libs) : @Collaborators libs nat :=
  fun c w =>
    (match c return @Answer libs c with
     | IdentityService_Create _ _ _ _ _ =>
         Ok {| id_Identifier := "did:new"; id_State := state |}
     | IdentityService_Get _ => Ok ["did:new"]
     | ClaimsService_CreateClaim _ _ =>
         Ok {| ccr_ID := "00000000-0000-0000-0000-000000000001" |}
     | ClaimsService_Revoke _ _ _ _ => None
     | ClaimsService_GetRevocationStatus _ _ _ => Ok (status p)
     | ClaimsService_GetByID _ _ id => Ok id
     | ClaimsService_GetAll _ _ _ => Ok [credential "a"; credential "b"]
     | ClaimsService_Agent _ _ => Ok agent
     | SchemaService_FromClaimModelToW3CCredential claim => Ok (credential claim)
     | Publisher_PublishState _ _ => Ok published
     | PackageManager_UnpackWithType _ envelope => Ok envelope
     | Health_Status => "up"
     end, S w).

Definition no_aux : @Proof libs :=
  {| Existence := true; proof_NodeAux := None; AllSiblings := [5; 0; 5; 9] |}.

(** A non-membership proof whose slot is taken by another key. *)
Definition absent_with_aux : @Proof Demo.libs :=
  {| Existence := false;
     proof_NodeAux := Some {| Key := 3; Value := 4 |};
     AllSiblings := [7; 7] |}.

Definition revocation_request : GetRevocationStatusRequestObject :=
  {| rs_Identifier := "did:issuer"; rs_Nonce := 12 |}.

Definition boom : error := errors_New (ErrOther 7) "boom".

Definition claim_body : CreateClaimRequest :=
  {| CredentialSchema := "https://schema.example/kyc.json";
     CredentialSubject := {[ "id" := "did:holder" ]};
     Expiration := None;
     MerklizedRootPosition := None;
     SubjectPosition := None;
     Type_ := "KYCAgeCredential";
     Version := None |}.

Definition create_claim_request : CreateClaimRequestObject :=
  {| cc_Identifier := "did:issuer"; cc_Body := claim_body |}.

Definition no_params : GetClaimsParams :=
  {| SchemaHash := None; SchemaType := None; Subject := None;
     QueryField := None; Self := None; Revoked := None |}.

Definition server : Server := {| cfg := {| ServerUrl := "http://localhost:3001" |} |}.

Definition identity_request : CreateIdentityRequestObject :=
  {| ci_Body_DidMetadata :=
       {| Method := "polygonid"; Blockchain := "polygon"; Network := "mumbai" |} |}.

End Demo.

(** ** How many calls a controller can make *)

Section CallBounds.
Context `{X : External}.

(** [AtMost n p]: whatever is answered, [p] makes at most [n] calls. *)
Inductive AtMost {R : Type} : nat -> Prog R -> Prop :=
| AtMost_Ret n r : AtMost n (Ret r)
| AtMost_Do n c k : (forall a, AtMost n (k a)) -> AtMost (S n) (Do c k).

End CallBounds.

Ltac at_most :=
  repeat first
    [ apply AtMost_Ret
    | apply AtMost_Do; intros ?
    | progress cbn [bind call respond]
    | case_match ].

(** ** The static documentation routes

    [http.ResponseWriter] is seen through the calls made on it, in order. *)

Inductive WriterOp : Type :=
| Header_Set (key value : string)      (* w.Header().Set(key, value) *)
| WriteHeader (statusCode : Z)         (* w.WriteHeader(statusCode) *)
| Write (data : ByteArray).            (* w.Write(data) *)

Definition http_StatusNotFound : Z := 404.
Definition http_StatusOK : Z := 200.

(** What [os.ReadFile] answers for each path: the bytes read and the error,
    if any (nil bytes are the empty list). *)
Definition FileSystem : Type := string -> ByteArray * option error.

(** [writeFile]: there is no return after the not-found branch. *)
Definition writeFile (fs : FileSystem) (path : string) : list WriterOp :=
  let '(f, err) := fs path in
  (match err with
   | Some _ => [WriteHeader http_StatusNotFound; Write (list_byte_of_string "not found")]
   | None => []
   end
   ++ [Header_Set "Content-Type" "text/html; charset=UTF-8";
       WriteHeader http_StatusOK;
       Write f])%list.

(** An [http.HandlerFunc] here: the request is not looked at. *)
Definition HandlerFunc : Type := FileSystem -> list WriterOp.

Definition documentation : HandlerFunc := fun fs => writeFile fs "api/spec.html".

Definition swagger : HandlerFunc := fun fs => writeFile fs "api/api.yaml".

(** The routes of a [chi.Mux], by method and pattern; [mux.Get] registers a
    handler for GET on a pattern. *)
Definition Mux : Type := gmap (string * string) HandlerFunc.

Definition Mux_Get (pattern : string) (handlerFn : HandlerFunc) (mux : Mux) : Mux :=
  <[("GET", pattern) := handlerFn]> mux.

Definition RegisterStatic (mux : Mux) : Mux :=
  Mux_Get "/static/docs/api/api.yaml" swagger (Mux_Get "/" documentation mux).

(** What the handler's calls fix, following net/http: the first
    [WriteHeader] fixes the status and takes a copy of the header map as the
    handler has set it so far, later ones are ignored, a [Write] before any
    [WriteHeader] implies status 200, and the body is what was written, in
    order.  [sent_header] holds the handler's own headers only; the
    Content-Type the client receives, which net/http finds by sniffing the
    body when the handler had set none, is [client_Content_Type] below. *)
Record Sent : Type := {
  wroteHeader : bool;
  sent_status : Z;
  header_map : gmap string string;     (* w.Header() *)
  sent_header : gmap string string;    (* as it was when the status was written *)
  sent_body : ByteArray
}.

Definition nothing_sent : Sent :=
  {| wroteHeader := false; sent_status := 0; header_map := ∅;
     sent_header := ∅; sent_body := [] |}.

Definition write_status (statusCode : Z) (r : Sent) : Sent :=
  if wroteHeader r then r
  else {| wroteHeader := true; sent_status := statusCode;
          header_map := header_map r; sent_header := header_map r;
          sent_body := sent_body r |}.

Definition writer_step (r : Sent) (op : WriterOp) : Sent :=
  match op with
  | Header_Set key value =>
      {| wroteHeader := wroteHeader r; sent_status := sent_status r;
         header_map := <[key := value]> (header_map r);
         sent_header := sent_header r; sent_body := sent_body r |}
  | WriteHeader statusCode => write_status statusCode r
  | Write data =>
      let r' := write_status http_StatusOK r in
      {| wroteHeader := wroteHeader r'; sent_status := sent_status r';
         header_map := header_map r'; sent_header := sent_header r';
         sent_body := (sent_body r' ++ data)%list |}
  end.

Definition sent (ops : list WriterOp) : Sent := foldl writer_step nothing_sent ops.

(** [http.DetectContentType] looks at the first 512 bytes at most. *)
Definition sniffLen : nat := 512.

(** net/http's [bodyAllowedForStatus]. *)
Definition bodyAllowedForStatus (status : Z) : bool :=
  if (100 <=? status) && (status <=? 199) then false
  else if status =? 204 then false
  else if status =? 304 then false
  else true.

Definition header_is_set (key : string) (header : gmap string string) : bool :=
  match header !! key with
  | Some (String _ _) => true
  | _ => false
  end.

(** The Content-Type the client receives: the one the handler had set when
    the status was written, if any; otherwise, for a status that allows a
    body, without Content-Encoding or Transfer-Encoding and with a non-empty
    body, the one [http.DetectContentType] (library code, a parameter here)
    finds in the body; otherwise none. *)
Definition client_Content_Type (DetectContentType : ByteArray -> string) (r : Sent)
  : option string :=
  match sent_header r !! "Content-Type" with
  | Some contentType => Some contentType
  | None =>
      if bodyAllowedForStatus (sent_status r)
         && negb (header_is_set "Content-Encoding" (sent_header r))
         && negb (header_is_set "Transfer-Encoding" (sent_header r))
         && negb (Nat.eqb (length (sent_body r)) 0)
      then Some (DetectContentType (take sniffLen (sent_body r)))
      else None
  end.

(** Libraries whose [ports] constructors reject what they are given, and
    collaborators for them. *)
Module Strict.

Definition libs : External :=
  {| Ctx := unit;
     Any := string;
     DID := string;
     ParseDID := Demo.parse_prefix;
     UUID := string;
     uuid_Parse := Demo.parse_length;
     UUID_String := fun u => u;
     Hash := Z;
     MarshalText := Demo.decimal_text;
     Claim := string;
     ports_CreateClaimRequest := string * string;
     NewCreateClaimRequest := fun did schema _ _ _ _ _ _ => (did, schema);
     ports_Filter := unit;
     NewClaimsFilter := fun _ _ _ _ _ _ =>
       Fail (errors_New (ErrOther 3) "invalid schema hash");
     BasicMessage := ByteArray;
     ports_AgentRequest := ByteArray;
     NewAgentRequest := fun _ =>
       Fail (errors_New (ErrOther 4) "invalid type");
     MediaTypeZKPMessage := "application/iden3-zkp-json" |}.
#[local] Existing Instance libs.

(** Collaborators that unpack any envelope and fail every other call. *)
Definition unpacking : @Collaborators libs nat :=
  fun c w =>
    (match c return @Answer libs c with
     | IdentityService_Create _ _ _ _ _ => Fail (errors_New (ErrOther 5) "unavailable")
     | IdentityService_Get _ => Fail (errors_New (ErrOther 5) "unavailable")
     | ClaimsService_CreateClaim _ _ => Fail (errors_New (ErrOther 5) "unavailable")
     | ClaimsService_Revoke _ _ _ _ => Some (errors_New (ErrOther 5) "unavailable")
     | ClaimsService_GetRevocationStatus _ _ _ =>
         Fail (errors_New (ErrOther 5) "unavailable")
     | ClaimsService_GetByID _ _ _ => Fail (errors_New (ErrOther 5) "unavailable")
     | ClaimsService_GetAll _ _ _ => Fail (errors_New (ErrOther 5) "unavailable")
     | ClaimsService_Agent _ _ => Fail (errors_New (ErrOther 5) "unavailable")
     | SchemaService_FromClaimModelToW3CCredential _ =>
         Fail (errors_New (ErrOther 5) "unavailable")
     | Publisher_PublishState _ _ => Fail (errors_New (ErrOther 5) "unavailable")
     | PackageManager_UnpackWithType _ envelope => Ok envelope
     | Health_Status => "up"
     end, S w).

End Strict.

Module Disk.

(** A disk that holds the HTML page but not the YAML file. *)
Definition page_only : FileSystem :=
  fun path =>
    if decide (path = "api/spec.html")
    then (list_byte_of_string "<html>docs</html>", None)
    else ([], Some (errors_New (ErrOther 6) "open: no such file or directory")).

(** A disk that holds both files. *)
Definition both : FileSystem :=
  fun path =>
    if decide (path = "api/spec.html")
    then (list_byte_of_string "<html>docs</html>", None)
    else if decide (path = "api/api.yaml")
    then (list_byte_of_string "openapi: 3.0.0", None)
    else ([], Some (errors_New (ErrOther 6) "open: no such file or directory")).

(** A stand-in for [http.DetectContentType]. *)
Definition detect (data : ByteArray) : string :=
  if String.eqb (string_of_list_byte data) "not found"
  then "text/plain; charset=utf-8"
  else "application/octet-stream".

(** A mux with one route already registered. *)
Definition with_status : Mux := {[ ("GET", "/status") := documentation ]}.

End Disk.

Definition claim_id : string := "123e4567-e89b-12d3-a456-426614174000".

(** Modelled from the spec: the claims service that answers CreateClaim is
    not part of this file.  By sections 4.2 and 6 a request that is
    syntactically valid but whose schema URL cannot be loaded fails with the
    schema-load failure; this is the error it then returns. *)
Definition schema_not_loadable : error :=
  errors_New ErrLoadingSchema "cannot load schema".

(** One error that is both a malformed-URL and a schema-load failure. *)
Definition malformed_and_not_loadable : error :=
  errors_Join "malformed url, cannot load schema"
    [errors_New ErrMalformedURL "malformed url";
     errors_New ErrLoadingSchema "cannot load schema"].

(** * Properties *)

(** ** Errors *)

(** Induction on errors that reaches the causes of a joined error. *)
Lemma error_ind_causes (P : error -> Prop) :
  (forall id text, P (errors_New id text)) ->
  (forall text cause, P cause -> P (fmt_Errorf_w text cause)) ->
  (forall text causes, Forall P causes -> P (errors_Join text causes)) ->
  forall e, P e.
Proof.
  intros Hnew Hwrap Hjoin.
  fix IH 1. intros [id text | text cause | text causes].
  - apply Hnew.
  - apply Hwrap, IH.
  - apply Hjoin. induction causes as [| c causes IHc]; constructor; [apply IH | exact IHc].
Qed.

(** [errors.Is] holds of exactly the identities found in the error. *)
Lemma errors_Is_identities (e : error) (target : ErrId) :
  errors_Is e target = true <-> target ∈ identities e.
Proof.
  induction e as [id text | text cause IH | text causes IH] using error_ind_causes; simpl.
  - rewrite bool_decide_eq_true, list_elem_of_singleton. split; congruence.
  - exact IH.
  - induction IH as [| c causes Hc _ IHcs]; simpl.
    + split; [discriminate | intros H; inversion H].
    + rewrite orb_true_iff, elem_of_app, Hc, IHcs. reflexivity.
Qed.

Section RunFacts.
Context `{X : External}.

Lemma run_Ret {W R : Type} (h : Collaborators W) (r : R) (w : W) :
  run h (Ret r) w = (r, w, []).
Proof. reflexivity. Qed.

(** One call followed by its continuation. *)
Lemma run_Do {W R : Type} (h : Collaborators W) (c : Call) (k : Answer c -> Prog R)
      (w w1 : W) (a : Answer c) :
  h c w = (a, w1) ->
  run h (Do c k) w = ((run h (k a) w1).1.1, (run h (k a) w1).1.2, c :: (run h (k a) w1).2).
Proof.
  intros Hc. simpl. rewrite Hc. destruct (run h (k a) w1) as [[r w2] tr]. reflexivity.
Qed.

Lemma run_call_bind {W R : Type} (h : Collaborators W) (c : Call)
      (f : Answer c -> Prog R) (w w1 : W) (a : Answer c) :
  h c w = (a, w1) ->
  run h (x <- call c ;; f x) w
  = ((run h (f a) w1).1.1, (run h (f a) w1).1.2, c :: (run h (f a) w1).2).
Proof. intros Hc. unfold call. simpl. apply run_Do. exact Hc. Qed.

(** What holds of every way a program can end holds of every run. *)
Lemma Always_run {W R : Type} (P : R -> Prop) (p : Prog R) :
  Always P p -> forall (h : Collaborators W) (w : W), P (run h p w).1.1.
Proof.
  induction 1 as [r Hr | c k _ IH]; intros h w.
  - exact Hr.
  - simpl. destruct (h c w) as [a w1] eqn:Hc.
    specialize (IH a h w1). destruct (run h (k a) w1) as [[r w2] tr]. exact IH.
Qed.

(** A program that makes no call is a [Ret]. *)
Lemma run_no_call {W R : Type} (h : Collaborators W) (p : Prog R) (w : W) :
  (run h p w).2 = [] -> exists r, p = Ret r.
Proof.
  destruct p as [r | c k]; [eauto |].
  simpl. destruct (h c w) as [a w1]. destruct (run h (k a) w1) as [[r w2] tr].
  discriminate.
Qed.

End RunFacts.

(** ** The claim shapers *)

Section Shapers.
Context `{X : External}.

(** After the first [n] rounds of the loop, the first [n] slots are shaped
    and the others still hold the zero value. *)
Lemma toGetClaims200Response_rounds (claims : list W3CCredential) (n : nat) :
  (n <= length claims)%nat ->
  foldl (fun response i =>
           match claims !! i with
           | Some claim => <[i := toGetClaim200Response claim]> response
           | None => response
           end)
        (replicate (length claims) GetClaimResponse_zero) (seq 0 n)
  = ((toGetClaim200Response <$> take n claims)
       ++ replicate (length claims - n) GetClaimResponse_zero)%list.
Proof.
  induction n as [| n IH]; intros Hn.
  - simpl. f_equal. lia.
  - rewrite seq_S, foldl_app. simpl. rewrite IH by lia.
    destruct (lookup_lt_is_Some_2 claims n) as [c Hc]; [lia |].
    rewrite Hc.
    rewrite (take_S_r _ _ _ Hc), fmap_app. simpl.
    replace (length claims - n)%nat with (S (length claims - S n)) by lia.
    simpl.
    assert (Hlen : length (toGetClaim200Response <$> take n claims) = n).
    { rewrite length_fmap, length_take. lia. }
    rewrite insert_app_r_alt by lia.
    rewrite Hlen, Nat.sub_diag. simpl.
    rewrite <- app_assoc. reflexivity.
Qed.

Lemma toGetClaims200Response_map (claims : list W3CCredential) :
  toGetClaims200Response claims = toGetClaim200Response <$> claims.
Proof.
  unfold toGetClaims200Response.
  rewrite toGetClaims200Response_rounds by lia.
  rewrite firstn_all, Nat.sub_diag. simpl. apply app_nil_r.
Qed.

(** C8: the bulk shaper returns as many elements as it is given, and its
    element at each index [i] is the single-credential shaping of the
    credential at index [i]: nothing is dropped, added or moved. *)
Theorem toGetClaims200Response_pointwise (claims : list W3CCredential) :
  length (toGetClaims200Response claims) = length claims /\
  forall i : nat,
    toGetClaims200Response claims !! i = toGetClaim200Response <$> claims !! i.
Proof.
  rewrite toGetClaims200Response_map. split.
  - apply length_fmap.
  - intros i. apply list_lookup_fmap.
Qed.

(** ** The revocation proof assembler *)

Lemma siblings_loop_from (acc : list ByteArray) (all : list Hash) :
  foldl (fun siblings s => let sb := (MarshalText s).1 in (siblings ++ [sb])%list) acc all
  = (acc ++ ((fun s => (MarshalText s).1) <$> all))%list.
Proof.
  revert acc. induction all as [| s all IH]; intros acc; simpl.
  - symmetry. apply app_nil_r.
  - rewrite IH, <- app_assoc. reflexivity.
Qed.

Lemma siblings_loop_map (all : list Hash) :
  siblings_loop all = (fun s => (MarshalText s).1) <$> all.
Proof. unfold siblings_loop. rewrite siblings_loop_from. reflexivity. Qed.

End Shapers.

Section RevocationStatus.
Context `{X : External}.
Context {W : Type} (h : Collaborators W).

Lemma GetRevocationStatus_ok (ctx : Ctx) (request : GetRevocationStatusRequestObject)
      (rs : RevocationStatus) (w w' : W) :
  h (ClaimsService_GetRevocationStatus ctx (rs_Identifier request)
       (uint64 (rs_Nonce request))) w = (Ok rs, w') ->
  run h (GetRevocationStatus ctx request) w
  = (Some (GetRevocationStatus200JSONResponse (assemble rs)), None, w',
     [ClaimsService_GetRevocationStatus ctx (rs_Identifier request)
        (uint64 (rs_Nonce request))]).
Proof.
  intros Hc. unfold GetRevocationStatus.
  rewrite (run_call_bind h _ _ w w' _ Hc). reflexivity.
Qed.

(** C4: in every successful revocation-status response the sibling
    sequence has the length of the raw proof's sibling list, and its
    element at each position is the encoding of the raw sibling at that
    position: siblings are neither reordered nor deduplicated. *)
Theorem GetRevocationStatus_siblings (ctx : Ctx)
        (request : GetRevocationStatusRequestObject)
        (rs : RevocationStatus) (w w' : W) :
  h (ClaimsService_GetRevocationStatus ctx (rs_Identifier request)
       (uint64 (rs_Nonce request))) w = (Ok rs, w') ->
  exists resp siblings,
    (run h (GetRevocationStatus ctx request) w).1.1
      = (Some (GetRevocationStatus200JSONResponse resp), None) /\
    mtp_Siblings (resp_Mtp resp) = Some siblings /\
    length siblings = length (AllSiblings (MTP rs)) /\
    forall i : nat, siblings !! i = encode <$> AllSiblings (MTP rs) !! i.
Proof.
  intros Hc. exists (assemble rs), (encode <$> AllSiblings (MTP rs)).
  rewrite (GetRevocationStatus_ok _ _ _ _ _ Hc). simpl.
  rewrite siblings_loop_map. repeat split.
  - apply length_fmap.
  - intros i. apply list_lookup_fmap.
Qed.

(** The auxiliary-node field follows the raw proof's auxiliary node: set,
    with the encodings of its key and value, when the proof has one, and
    left nil when it has none. *)
Lemma assemble_NodeAux (rs : RevocationStatus) :
  mtp_NodeAux (resp_Mtp (assemble rs))
  = match proof_NodeAux (MTP rs) with
    | Some nodeAux => Some {| aux_Key := Some (encode (Key nodeAux));
                              aux_Value := Some (encode (Value nodeAux)) |}
    | None => None
    end.
Proof. unfold assemble. simpl. destruct (proof_NodeAux (MTP rs)); reflexivity. Qed.

(** C3: for every successful revocation-status response over a raw proof of
    the tree, which carries an auxiliary node only when it reports
    existence=false, the auxiliary-node field is present if and only if the
    raw proof reports existence=false and carries an auxiliary node; when
    present its key and value are the encodings of the raw node's key and
    value, and when absent the field is nil, so that it is omitted. *)
Theorem GetRevocationStatus_NodeAux (ctx : Ctx)
        (request : GetRevocationStatusRequestObject)
        (rs : RevocationStatus) (w w' : W) :
  h (ClaimsService_GetRevocationStatus ctx (rs_Identifier request)
       (uint64 (rs_Nonce request))) w = (Ok rs, w') ->
  (Existence (MTP rs) = true -> proof_NodeAux (MTP rs) = None) ->
  exists resp,
    (run h (GetRevocationStatus ctx request) w).1.1
      = (Some (GetRevocationStatus200JSONResponse resp), None) /\
    (is_Some (mtp_NodeAux (resp_Mtp resp))
     <-> Existence (MTP rs) = false /\ is_Some (proof_NodeAux (MTP rs))) /\
    (forall nodeAux, proof_NodeAux (MTP rs) = Some nodeAux ->
       mtp_NodeAux (resp_Mtp resp)
       = Some {| aux_Key := Some (encode (Key nodeAux));
                 aux_Value := Some (encode (Value nodeAux)) |}) /\
    (~ (Existence (MTP rs) = false /\ is_Some (proof_NodeAux (MTP rs))) ->
       mtp_NodeAux (resp_Mtp resp) = None).
Proof.
  intros Hc Hwf. exists (assemble rs).
  rewrite (GetRevocationStatus_ok _ _ _ _ _ Hc).
  split; [reflexivity |].
  rewrite assemble_NodeAux.
  destruct (proof_NodeAux (MTP rs)) as [nodeAux |] eqn:Haux.
  - assert (Hex : Existence (MTP rs) = false).
    { destruct (Existence (MTP rs)); [| reflexivity].
      specialize (Hwf eq_refl). discriminate. }
    split; [split; [intros _; split; [exact Hex | eauto] | intros _; eauto] |].
    split; [intros n [= <-]; reflexivity |].
    intros Hno. exfalso. apply Hno. split; [exact Hex | eauto].
  - split; [split; [intros [? [=]] | intros [_ [? [=]]]] |].
    split; [discriminate | reflexivity].
Qed.

End RevocationStatus.

Section RevocationStatusExamples.
#[local] Existing Instance Demo.libs.

Lemma GetRevocationStatus_siblings_witness :
  exists resp siblings,
    (run (Demo.working Demo.no_aux)
         (GetRevocationStatus tt Demo.revocation_request) 0%nat).1.1
      = (Some (GetRevocationStatus200JSONResponse resp), None) /\
    mtp_Siblings (resp_Mtp resp) = Some siblings /\
    length siblings = length (AllSiblings (MTP (Demo.status Demo.no_aux))) /\
    forall i : nat,
      siblings !! i = encode <$> AllSiblings (MTP (Demo.status Demo.no_aux)) !! i.
Proof.
  apply (GetRevocationStatus_siblings (X := Demo.libs) (Demo.working Demo.no_aux)
           tt Demo.revocation_request (Demo.status Demo.no_aux) 0%nat 1%nat).
  reflexivity.
Defined.

Lemma GetRevocationStatus_NodeAux_witness :
  exists resp,
    (run (Demo.working Demo.absent_with_aux)
         (GetRevocationStatus tt Demo.revocation_request) 0%nat).1.1
      = (Some (GetRevocationStatus200JSONResponse resp), None) /\
    mtp_NodeAux (resp_Mtp resp)
      = Some {| aux_Key := Some (list_byte_of_string "3");
                aux_Value := Some (list_byte_of_string "4") |}.
Proof.
  destruct (GetRevocationStatus_NodeAux (X := Demo.libs)
              (Demo.working Demo.absent_with_aux)
              tt Demo.revocation_request (Demo.status Demo.absent_with_aux)
              0%nat 1%nat eq_refl ltac:(discriminate))
    as (resp & Hrun & _ & Hpresent & _).
  exists resp. split; [exact Hrun |].
  rewrite (Hpresent _ eq_refl). vm_compute. reflexivity.
Defined.

(** A proof of existence has no auxiliary node, and its response omits the
    field. *)
Example GetRevocationStatus_NodeAux_omitted :
  mtp_NodeAux (resp_Mtp (assemble (Demo.status Demo.no_aux))) = None.
Proof. reflexivity. Qed.

End RevocationStatusExamples.

(** ** Outcomes of the controllers *)

Section Outcomes.
Context `{X : External}.
Context {W : Type} (h : Collaborators W).

Lemma CreateClaim_fail (ctx : Ctx) (request : CreateClaimRequestObject) (did : DID)
      (err : error) (w w' : W) :
  ParseDID (cc_Identifier request) = Ok did ->
  h (CreateClaim_call ctx request did) w = (Fail err, w') ->
  run h (CreateClaim ctx request) w
  = (Some (CreateClaim_on_error err), None, w', [CreateClaim_call ctx request did]).
Proof.
  intros Hp Hc. unfold CreateClaim, CreateClaim_on_error. rewrite Hp.
  rewrite (run_call_bind h _ _ w w' _ Hc).
  repeat case_match; reflexivity.
Qed.

Lemma RevokeClaim_fail (ctx : Ctx) (request : RevokeClaimRequestObject)
      (err : error) (w w' : W) :
  h (Revoke_call ctx request) w = (Some err, w') ->
  run h (RevokeClaim ctx request) w
  = (Some (RevokeClaim_on_error err), None, w', [Revoke_call ctx request]).
Proof.
  intros Hc. unfold RevokeClaim, RevokeClaim_on_error.
  rewrite (run_call_bind h _ _ w w' _ Hc).
  case_match; reflexivity.
Qed.

Lemma GetRevocationStatus_fail (ctx : Ctx) (request : GetRevocationStatusRequestObject)
      (err : error) (w w' : W) :
  h (GetRevocationStatus_call ctx request) w = (Fail err, w') ->
  run h (GetRevocationStatus ctx request) w
  = (Some (GetRevocationStatus500JSONResponse (N500 (Error err))), None, w',
     [GetRevocationStatus_call ctx request]).
Proof.
  intros Hc. unfold GetRevocationStatus.
  rewrite (run_call_bind h _ _ w w' _ Hc). reflexivity.
Qed.

Lemma GetClaim_fail (ctx : Ctx) (request : GetClaimRequestObject) (did : DID) (clID : UUID)
      (err : error) (w w' : W) :
  gc_Identifier request <> "" ->
  ParseDID (gc_Identifier request) = Ok did ->
  gc_Id request <> "" ->
  uuid_Parse (gc_Id request) = Ok clID ->
  h (ClaimsService_GetByID ctx did clID) w = (Fail err, w') ->
  run h (GetClaim ctx request) w
  = (Some (GetClaim_on_error err), None, w', [ClaimsService_GetByID ctx did clID]).
Proof.
  intros Hne Hp Hid Hu Hc. unfold GetClaim, GetClaim_on_error.
  rewrite (decide_False _ _ Hne), Hp, (decide_False _ _ Hid), Hu.
  rewrite (run_call_bind h _ _ w w' _ Hc).
  case_match; reflexivity.
Qed.

Lemma GetClaim_schema_fail (ctx : Ctx) (request : GetClaimRequestObject) (did : DID)
      (clID : UUID) (claim : Claim) (err : error) (w w1 w2 : W) :
  gc_Identifier request <> "" ->
  ParseDID (gc_Identifier request) = Ok did ->
  gc_Id request <> "" ->
  uuid_Parse (gc_Id request) = Ok clID ->
  h (ClaimsService_GetByID ctx did clID) w = (Ok claim, w1) ->
  h (SchemaService_FromClaimModelToW3CCredential claim) w1 = (Fail err, w2) ->
  run h (GetClaim ctx request) w
  = (Some (GetClaim500JSONResponse (N500 "invalid claim format")), None, w2,
     [ClaimsService_GetByID ctx did clID;
      SchemaService_FromClaimModelToW3CCredential claim]).
Proof.
  intros Hne Hp Hid Hu Hc1 Hc2. unfold GetClaim.
  rewrite (decide_False _ _ Hne), Hp, (decide_False _ _ Hid), Hu.
  rewrite (run_call_bind h _ _ w w1 _ Hc1).
  rewrite (run_call_bind h _ _ w1 w2 _ Hc2). reflexivity.
Qed.

Lemma GetClaims_fail (ctx : Ctx) (request : GetClaimsRequestObject) (did : DID)
      (filter : ports_Filter) (err : error) (w w' : W) :
  gcs_Identifier request <> "" ->
  ParseDID (gcs_Identifier request) = Ok did ->
  NewClaimsFilter (SchemaHash (gcs_Params request)) (SchemaType (gcs_Params request))
    (Subject (gcs_Params request)) (QueryField (gcs_Params request))
    (Self (gcs_Params request)) (Revoked (gcs_Params request)) = Ok filter ->
  h (ClaimsService_GetAll ctx did filter) w = (Fail err, w') ->
  run h (GetClaims ctx request) w
  = (Some (GetClaims500JSONResponse (N500
       "there was an internal error trying to retrieve claims for the requested identifier")),
     None, w', [ClaimsService_GetAll ctx did filter]).
Proof.
  intros Hne Hp Hf Hc. unfold GetClaims.
  rewrite (decide_False _ _ Hne), Hp. cbv zeta. rewrite Hf.
  rewrite (run_call_bind h _ _ w w' _ Hc). reflexivity.
Qed.

Lemma GetIdentities_fail (ctx : Ctx) (err : error) (w w' : W) :
  h (IdentityService_Get ctx) w = (Fail err, w') ->
  run h (GetIdentities ctx) w
  = (Some (GetIdentities500JSONResponse (N500 (Error err))), None, w',
     [IdentityService_Get ctx]).
Proof.
  intros Hc. unfold GetIdentities.
  rewrite (run_call_bind h _ _ w w' _ Hc). reflexivity.
Qed.

Lemma PublishIdentityState_fail (ctx : Ctx) (request : PublishIdentityStateRequestObject)
      (did : DID) (err : error) (w w' : W) :
  ParseDID (pis_Identifier request) = Ok did ->
  h (Publisher_PublishState ctx did) w = (Fail err, w') ->
  run h (PublishIdentityState ctx request) w
  = (Some (PublishIdentityState_on_error err), None, w', [Publisher_PublishState ctx did]).
Proof.
  intros Hp Hc. unfold PublishIdentityState, PublishIdentityState_on_error. rewrite Hp.
  rewrite (run_call_bind h _ _ w w' _ Hc).
  case_match; reflexivity.
Qed.

Lemma Agent_unpack_fail (ctx : Ctx) (body : string) (err : error) (w w' : W) :
  body <> "" ->
  h (Unpack_call body) w = (Fail err, w') ->
  run h (Agent ctx {| ag_req_Body := Some body |}) w
  = (Some (Agent400JSONResponse (N400 "can not proceed with the given request")), None, w',
     [Unpack_call body]).
Proof.
  intros Hne Hc. unfold Agent. cbn [ag_req_Body]. rewrite (decide_False _ _ Hne).
  rewrite (run_call_bind h _ _ w w' _ Hc). reflexivity.
Qed.

Lemma Agent_handler_fail (ctx : Ctx) (body : string) (msg : BasicMessage)
      (req : ports_AgentRequest) (err : error) (w w1 w2 : W) :
  body <> "" ->
  h (Unpack_call body) w = (Ok msg, w1) ->
  NewAgentRequest msg = Ok req ->
  h (ClaimsService_Agent ctx req) w1 = (Fail err, w2) ->
  run h (Agent ctx {| ag_req_Body := Some body |}) w
  = (Some (Agent400JSONResponse (N400 (Error err))), None, w2,
     [Unpack_call body; ClaimsService_Agent ctx req]).
Proof.
  intros Hne Hc1 Hreq Hc2. unfold Agent. cbn [ag_req_Body]. rewrite (decide_False _ _ Hne).
  rewrite (run_call_bind h _ _ w w1 _ Hc1). rewrite Hreq.
  rewrite (run_call_bind h _ _ w1 w2 _ Hc2). reflexivity.
Qed.

Lemma CreateIdentity_fail (s : Server) (ctx : Ctx) (request : CreateIdentityRequestObject)
      (err : error) (w w' : W) :
  let c := IdentityService_Create ctx (Method (ci_Body_DidMetadata request))
             (Blockchain (ci_Body_DidMetadata request))
             (Network (ci_Body_DidMetadata request)) (ServerUrl (cfg s)) in
  h c w = (Fail err, w') ->
  run h (CreateIdentity s ctx request) w
  = (if errors_Is err ErrWrongDIDMetada
     then Some (CreateIdentity400JSONResponse (N400 (Error err)))
     else None,
     if errors_Is err ErrWrongDIDMetada then None else Some err,
     w', [c]).
Proof.
  intros c Hc. unfold CreateIdentity. cbv zeta.
  rewrite (run_call_bind h _ _ w w' _ Hc).
  case_match; reflexivity.
Qed.

End Outcomes.

Section Claims.
Context `{X : External}.
Context {W : Type} (h : Collaborators W).

(** C2, as the code has it: for a CreateClaim request over a valid DID, an
    error of the claims service is classified by the first test that
    holds, in this order: a JSON-LD-context or a schema-processing failure
    is answered with 400; otherwise a schema-load failure is answered with
    422; otherwise a malformed-URL failure is answered with 400; any other
    error is answered with 500.  So a malformed-URL failure that is not also
    a schema-load failure gives 400, a schema URL that cannot be loaded
    gives 422, and none of the four gives 500.  The message is the error's
    own, one call is made and the Go error is nil. *)
Theorem CreateClaim_error_mapping (ctx : Ctx) (request : CreateClaimRequestObject)
        (did : DID) (err : error) (w w' : W) :
  ParseDID (cc_Identifier request) = Ok did ->
  h (CreateClaim_call ctx request did) w = (Fail err, w') ->
  exists resp,
    run h (CreateClaim ctx request) w
      = (Some resp, None, w', [CreateClaim_call ctx request did]) /\
    (errors_Is err ErrJSONLdContext = true ->
       resp = CreateClaim400JSONResponse (N400 (Error err))) /\
    (errors_Is err ErrProcessSchema = true ->
       resp = CreateClaim400JSONResponse (N400 (Error err))) /\
    (errors_Is err ErrJSONLdContext = false ->
     errors_Is err ErrProcessSchema = false ->
     errors_Is err ErrLoadingSchema = true ->
       resp = CreateClaim422JSONResponse (N422 (Error err))) /\
    (errors_Is err ErrLoadingSchema = false ->
     errors_Is err ErrMalformedURL = true ->
       resp = CreateClaim400JSONResponse (N400 (Error err))) /\
    (errors_Is err ErrJSONLdContext = false ->
     errors_Is err ErrProcessSchema = false ->
     errors_Is err ErrLoadingSchema = false ->
     errors_Is err ErrMalformedURL = false ->
       resp = CreateClaim500JSONResponse (N500 (Error err))) /\
    (errors_Is err ErrJSONLdContext || errors_Is err ErrProcessSchema
     || errors_Is err ErrLoadingSchema || errors_Is err ErrMalformedURL = true ->
       CreateClaim_status resp = 400 \/ CreateClaim_status resp = 422).
Proof.
  intros Hp Hc. exists (CreateClaim_on_error err).
  split; [exact (CreateClaim_fail h ctx request did err w w' Hp Hc) |].
  unfold CreateClaim_on_error.
  destruct (errors_Is err ErrJSONLdContext) eqn:H1;
    destruct (errors_Is err ErrProcessSchema) eqn:H2;
    destruct (errors_Is err ErrLoadingSchema) eqn:H3;
    destruct (errors_Is err ErrMalformedURL) eqn:H4;
    repeat split; intros; simpl in *; auto; discriminate.
Qed.

(** C5: for a PublishIdentityState call over a valid DID, when the publisher
    reports "no states to process" or "state is being processed" the
    controller answers with the 200 acknowledgment carrying the error's
    message, and a nil Go error; every other publisher error is answered
    with 500 and the error's message. *)
Theorem PublishIdentityState_error_mapping (ctx : Ctx)
        (request : PublishIdentityStateRequestObject)
        (did : DID) (err : error) (w w' : W) :
  ParseDID (pis_Identifier request) = Ok did ->
  h (Publisher_PublishState ctx did) w = (Fail err, w') ->
  exists resp,
    run h (PublishIdentityState ctx request) w
      = (Some resp, None, w', [Publisher_PublishState ctx did]) /\
    (errors_Is err ErrNoStatesToProcess = true ->
       resp = PublishIdentityState200JSONResponse (Error err)) /\
    (errors_Is err ErrStateIsBeingProcessed = true ->
       resp = PublishIdentityState200JSONResponse (Error err)) /\
    (errors_Is err ErrNoStatesToProcess = false ->
     errors_Is err ErrStateIsBeingProcessed = false ->
       resp = PublishIdentityState500JSONResponse (N500 (Error err))) /\
    (PublishIdentityState_status resp = 200 \/ PublishIdentityState_status resp = 500).
Proof.
  intros Hp Hc. exists (PublishIdentityState_on_error err).
  split; [exact (PublishIdentityState_fail h ctx request did err w w' Hp Hc) |].
  unfold PublishIdentityState_on_error.
  destruct (errors_Is err ErrNoStatesToProcess) eqn:H1;
    destruct (errors_Is err ErrStateIsBeingProcessed) eqn:H2;
    repeat split; intros; simpl; auto; discriminate.
Qed.

(** C9: when the claims service reports that the claim to revoke does not
    exist, RevokeClaim answers with 404 and the message
    "the claim does not exist". *)
Theorem RevokeClaim_claim_does_not_exist (ctx : Ctx) (request : RevokeClaimRequestObject)
        (err : error) (w w' : W) :
  h (Revoke_call ctx request) w = (Some err, w') ->
  errors_Is err ErrClaimDoesNotExist = true ->
  run h (RevokeClaim ctx request) w
    = (Some (RevokeClaim404JSONResponse (N404 "the claim does not exist")), None, w',
       [Revoke_call ctx request]) /\
  RevokeClaim_status (RevokeClaim404JSONResponse (N404 "the claim does not exist")) = 404.
Proof.
  intros Hc Hi. split; [| reflexivity].
  rewrite (RevokeClaim_fail h ctx request err w w' Hc).
  unfold RevokeClaim_on_error. rewrite Hi. reflexivity.
Qed.

End Claims.

Section Structured.
Context `{X : External}.

Lemma Health_structured (ctx : Ctx) :
  Always structured (Health ctx).
Proof. unfold Health. always_structured. Qed.

Lemma CreateClaim_structured (ctx : Ctx) (request : CreateClaimRequestObject) :
  Always structured (CreateClaim ctx request).
Proof. unfold CreateClaim. always_structured. Qed.

Lemma RevokeClaim_structured (ctx : Ctx) (request : RevokeClaimRequestObject) :
  Always structured (RevokeClaim ctx request).
Proof. unfold RevokeClaim. always_structured. Qed.

Lemma GetRevocationStatus_structured (ctx : Ctx) (request : GetRevocationStatusRequestObject) :
  Always structured (GetRevocationStatus ctx request).
Proof. unfold GetRevocationStatus. always_structured. Qed.

Lemma GetClaim_structured (ctx : Ctx) (request : GetClaimRequestObject) :
  Always structured (GetClaim ctx request).
Proof. unfold GetClaim. always_structured. Qed.

Lemma GetClaims_structured (ctx : Ctx) (request : GetClaimsRequestObject) :
  Always structured (GetClaims ctx request).
Proof. unfold GetClaims. always_structured. Qed.

Lemma GetIdentities_structured (ctx : Ctx) :
  Always structured (GetIdentities ctx).
Proof. unfold GetIdentities. always_structured. Qed.

Lemma Agent_structured (ctx : Ctx) (request : AgentRequestObject) :
  Always structured (Agent ctx request).
Proof. unfold Agent. always_structured. Qed.

Lemma PublishIdentityState_structured (ctx : Ctx) (request : PublishIdentityStateRequestObject) :
  Always structured (PublishIdentityState ctx request).
Proof. unfold PublishIdentityState. always_structured. Qed.

End Structured.

Section MoreClaims.
Context `{X : External}.
Context {W : Type} (h : Collaborators W).

(** C10: when the identity service fails with an error that is not the
    wrong-DID-metadata sentinel, CreateIdentity returns no response object
    and the error itself; every other controller that calls a collaborator
    returns a response object and a nil error, whatever its collaborators
    answer. *)
Theorem CreateIdentity_propagates_error (s : Server) (ctx : Ctx)
        (request : CreateIdentityRequestObject) (err : error) (w w' : W) :
  h (IdentityService_Create ctx (Method (ci_Body_DidMetadata request))
       (Blockchain (ci_Body_DidMetadata request))
       (Network (ci_Body_DidMetadata request)) (ServerUrl (cfg s))) w = (Fail err, w') ->
  errors_Is err ErrWrongDIDMetada = false ->
  run h (CreateIdentity s ctx request) w
    = (None, Some err, w',
       [IdentityService_Create ctx (Method (ci_Body_DidMetadata request))
          (Blockchain (ci_Body_DidMetadata request))
          (Network (ci_Body_DidMetadata request)) (ServerUrl (cfg s))]) /\
  (forall (anyctx : Ctx) (w0 : W),
     structured (run h (Health anyctx) w0).1.1 /\
     (forall r, structured (run h (CreateClaim anyctx r) w0).1.1) /\
     (forall r, structured (run h (RevokeClaim anyctx r) w0).1.1) /\
     (forall r, structured (run h (GetRevocationStatus anyctx r) w0).1.1) /\
     (forall r, structured (run h (GetClaim anyctx r) w0).1.1) /\
     (forall r, structured (run h (GetClaims anyctx r) w0).1.1) /\
     structured (run h (GetIdentities anyctx) w0).1.1 /\
     (forall r, structured (run h (Agent anyctx r) w0).1.1) /\
     (forall r, structured (run h (PublishIdentityState anyctx r) w0).1.1)).
Proof.
  intros Hc Hi. split.
  - rewrite (CreateIdentity_fail h s ctx request err w w' Hc). rewrite Hi. reflexivity.
  - intros anyctx w0.
    repeat split; intros;
      apply (Always_run structured);
      auto using Health_structured, CreateClaim_structured, RevokeClaim_structured,
        GetRevocationStatus_structured, GetClaim_structured, GetClaims_structured,
        GetIdentities_structured, Agent_structured, PublishIdentityState_structured.
Qed.

(** C7, as the code has it: a collaborator error that the controller does
    not single out is answered with 500 and the error's own message by
    CreateClaim, RevokeClaim, GetRevocationStatus, GetClaim (claim lookup),
    GetIdentities and PublishIdentityState.  GetClaims answers any error of
    the claim listing with 500 and a fixed message, GetClaim answers any
    error of the schema conversion with 500 and "invalid claim format", and
    Agent answers with 400: a fixed message when unpacking fails, the
    error's message when the agent handler fails. *)
Theorem unrecognized_error_outcomes (ctx : Ctx) (err : error) (w w' : W) :
  (forall request did,
     ParseDID (cc_Identifier request) = Ok did ->
     h (CreateClaim_call ctx request did) w = (Fail err, w') ->
     errors_Is err ErrJSONLdContext = false ->
     errors_Is err ErrProcessSchema = false ->
     errors_Is err ErrLoadingSchema = false ->
     errors_Is err ErrMalformedURL = false ->
     run h (CreateClaim ctx request) w
       = (Some (CreateClaim500JSONResponse (N500 (Error err))), None, w',
          [CreateClaim_call ctx request did])) /\
  (forall request,
     h (Revoke_call ctx request) w = (Some err, w') ->
     errors_Is err ErrClaimDoesNotExist = false ->
     run h (RevokeClaim ctx request) w
       = (Some (RevokeClaim500JSONResponse (N500 (Error err))), None, w',
          [Revoke_call ctx request])) /\
  (forall request,
     h (GetRevocationStatus_call ctx request) w = (Fail err, w') ->
     run h (GetRevocationStatus ctx request) w
       = (Some (GetRevocationStatus500JSONResponse (N500 (Error err))), None, w',
          [GetRevocationStatus_call ctx request])) /\
  (forall request did clID,
     gc_Identifier request <> "" ->
     ParseDID (gc_Identifier request) = Ok did ->
     gc_Id request <> "" ->
     uuid_Parse (gc_Id request) = Ok clID ->
     h (ClaimsService_GetByID ctx did clID) w = (Fail err, w') ->
     errors_Is err ErrClaimNotFound = false ->
     run h (GetClaim ctx request) w
       = (Some (GetClaim500JSONResponse (N500 (Error err))), None, w',
          [ClaimsService_GetByID ctx did clID])) /\
  (h (IdentityService_Get ctx) w = (Fail err, w') ->
     run h (GetIdentities ctx) w
       = (Some (GetIdentities500JSONResponse (N500 (Error err))), None, w',
          [IdentityService_Get ctx])) /\
  (forall request did,
     ParseDID (pis_Identifier request) = Ok did ->
     h (Publisher_PublishState ctx did) w = (Fail err, w') ->
     errors_Is err ErrNoStatesToProcess = false ->
     errors_Is err ErrStateIsBeingProcessed = false ->
     run h (PublishIdentityState ctx request) w
       = (Some (PublishIdentityState500JSONResponse (N500 (Error err))), None, w',
          [Publisher_PublishState ctx did])) /\
  (forall request did filter,
     gcs_Identifier request <> "" ->
     ParseDID (gcs_Identifier request) = Ok did ->
     NewClaimsFilter (SchemaHash (gcs_Params request)) (SchemaType (gcs_Params request))
       (Subject (gcs_Params request)) (QueryField (gcs_Params request))
       (Self (gcs_Params request)) (Revoked (gcs_Params request)) = Ok filter ->
     h (ClaimsService_GetAll ctx did filter) w = (Fail err, w') ->
     run h (GetClaims ctx request) w
       = (Some (GetClaims500JSONResponse (N500
            "there was an internal error trying to retrieve claims for the requested identifier")),
          None, w', [ClaimsService_GetAll ctx did filter])) /\
  (forall request did clID claim w0,
     gc_Identifier request <> "" ->
     ParseDID (gc_Identifier request) = Ok did ->
     gc_Id request <> "" ->
     uuid_Parse (gc_Id request) = Ok clID ->
     h (ClaimsService_GetByID ctx did clID) w0 = (Ok claim, w) ->
     h (SchemaService_FromClaimModelToW3CCredential claim) w = (Fail err, w') ->
     run h (GetClaim ctx request) w0
       = (Some (GetClaim500JSONResponse (N500 "invalid claim format")), None, w',
          [ClaimsService_GetByID ctx did clID;
           SchemaService_FromClaimModelToW3CCredential claim])) /\
  (forall body,
     body <> "" ->
     h (Unpack_call body) w = (Fail err, w') ->
     run h (Agent ctx {| ag_req_Body := Some body |}) w
       = (Some (Agent400JSONResponse (N400 "can not proceed with the given request")),
          None, w', [Unpack_call body])) /\
  (forall body msg req w0,
     body <> "" ->
     h (Unpack_call body) w0 = (Ok msg, w) ->
     NewAgentRequest msg = Ok req ->
     h (ClaimsService_Agent ctx req) w = (Fail err, w') ->
     run h (Agent ctx {| ag_req_Body := Some body |}) w0
       = (Some (Agent400JSONResponse (N400 (Error err))), None, w',
          [Unpack_call body; ClaimsService_Agent ctx req])).
Proof.
  repeat apply conj.
  - intros request did Hp Hc H1 H2 H3 H4.
    rewrite (CreateClaim_fail h ctx request did err w w' Hp Hc).
    unfold CreateClaim_on_error. rewrite H1, H2, H3, H4. reflexivity.
  - intros request Hc H1.
    rewrite (RevokeClaim_fail h ctx request err w w' Hc).
    unfold RevokeClaim_on_error. rewrite H1. reflexivity.
  - intros request Hc. exact (GetRevocationStatus_fail h ctx request err w w' Hc).
  - intros request did clID Hne Hp Hid Hu Hc H1.
    rewrite (GetClaim_fail h ctx request did clID err w w' Hne Hp Hid Hu Hc).
    unfold GetClaim_on_error. rewrite H1. reflexivity.
  - intros Hc. exact (GetIdentities_fail h ctx err w w' Hc).
  - intros request did Hp Hc H1 H2.
    rewrite (PublishIdentityState_fail h ctx request did err w w' Hp Hc).
    unfold PublishIdentityState_on_error. rewrite H1, H2. reflexivity.
  - intros request did filter Hne Hp Hf Hc.
    exact (GetClaims_fail h ctx request did filter err w w' Hne Hp Hf Hc).
  - intros request did clID claim w0 Hne Hp Hid Hu Hc1 Hc2.
    exact (GetClaim_schema_fail h ctx request did clID claim err w0 w w'
             Hne Hp Hid Hu Hc1 Hc2).
  - intros body Hne Hc. exact (Agent_unpack_fail h ctx body err w w' Hne Hc).
  - intros body msg req w0 Hne Hc1 Hreq Hc2.
    exact (Agent_handler_fail h ctx body msg req err w0 w w' Hne Hc1 Hreq Hc2).
Qed.

(** RevokeClaim and GetRevocationStatus start by handing the identifier
    string, as it is, to the claims service, and no response of theirs has
    status 400. *)
Lemma identifier_forwarded_unparsed (ctx : Ctx) (s : string) :
  (forall nonce, exists k,
     RevokeClaim ctx {| rc_Identifier := s; rc_Nonce := nonce |}
     = Do (ClaimsService_Revoke ctx s (uint64 nonce) "") k) /\
  (forall nonce, exists k,
     GetRevocationStatus ctx {| rs_Identifier := s; rs_Nonce := nonce |}
     = Do (ClaimsService_GetRevocationStatus ctx s (uint64 nonce)) k) /\
  (forall r, RevokeClaim_status r <> 400) /\
  (forall r, GetRevocationStatus_status r <> 400).
Proof.
  repeat apply conj.
  - intros nonce. eexists. reflexivity.
  - intros nonce. eexists. reflexivity.
  - intros [m | r | r]; discriminate.
  - intros [r | r]; discriminate.
Qed.

(** C1, for the controllers that validate: for an identifier string that
    [ParseDID] rejects, CreateClaim, GetClaim, GetClaims and
    PublishIdentityState answer with 400 and call no collaborator (the world
    is untouched and the answer is the same whatever the collaborators
    would do); GetClaim and GetClaims answer the empty identifier the same
    way before parsing it. *)
Theorem malformed_identifier_rejected (ctx : Ctx) (s : string) (e : error) (w : W) :
  ParseDID s = Fail e ->
  (forall body,
     run h (CreateClaim ctx {| cc_Identifier := s; cc_Body := body |}) w
       = (Some (CreateClaim400JSONResponse (N400 (Error e))), None, w, [])) /\
  (forall id,
     run h (GetClaim ctx {| gc_Identifier := s; gc_Id := id |}) w
       = (Some (GetClaim400JSONResponse
                  (N400 (if decide (s = "") then "invalid did, can not be empty"
                         else "invalid did"))), None, w, [])) /\
  (forall params,
     run h (GetClaims ctx {| gcs_Identifier := s; gcs_Params := params |}) w
       = (Some (GetClaims400JSONResponse
                  (N400 (if decide (s = "") then "invalid did, can not be empty"
                         else "invalid did"))), None, w, [])) /\
  run h (PublishIdentityState ctx {| pis_Identifier := s |}) w
    = (Some (PublishIdentityState400JSONResponse (N400 "invalid did")), None, w, []) /\
  (forall id,
     run h (GetClaim ctx {| gc_Identifier := ""; gc_Id := id |}) w
       = (Some (GetClaim400JSONResponse (N400 "invalid did, can not be empty")),
          None, w, [])) /\
  (forall params,
     run h (GetClaims ctx {| gcs_Identifier := ""; gcs_Params := params |}) w
       = (Some (GetClaims400JSONResponse (N400 "invalid did, can not be empty")),
          None, w, [])).
Proof.
  intros Hp. repeat apply conj.
  - intros body. unfold CreateClaim. cbn [cc_Identifier]. rewrite Hp. reflexivity.
  - intros id. unfold GetClaim. cbn [gc_Identifier].
    destruct (decide (s = "")); [reflexivity |]. rewrite Hp. reflexivity.
  - intros params. unfold GetClaims. cbn [gcs_Identifier].
    destruct (decide (s = "")); [reflexivity |]. rewrite Hp. reflexivity.
  - unfold PublishIdentityState. cbn [pis_Identifier]. rewrite Hp. reflexivity.
  - intros id. reflexivity.
  - intros params. reflexivity.
Qed.

(** C6, as the code has it: an Agent request with no body or with the empty
    body is answered with 400 "can not proceed with an empty request" and
    unpack is not invoked; any other body, blank or not, is handed to the
    package manager's unpack as the first thing. *)
Theorem Agent_empty_body (ctx : Ctx) (request : AgentRequestObject) (w : W) :
  ag_req_Body request = None \/ ag_req_Body request = Some "" ->
  run h (Agent ctx request) w
    = (Some (Agent400JSONResponse (N400 "can not proceed with an empty request")),
       None, w, []) /\
  (forall body, body <> "" ->
     exists k, Agent ctx {| ag_req_Body := Some body |} = Do (Unpack_call body) k).
Proof.
  intros Hb. split.
  - unfold Agent. destruct Hb as [-> | ->]; reflexivity.
  - intros body Hne. unfold Agent. cbn [ag_req_Body].
    rewrite (decide_False _ _ Hne). eexists. reflexivity.
Qed.

End MoreClaims.

(** ** The controllers on concrete requests *)

Section ClaimExamples.
#[local] Existing Instance Demo.libs.

Lemma CreateClaim_error_mapping_witness :
  exists resp,
    run (Demo.failing (errors_New ErrMalformedURL "malformed url"))
        (CreateClaim tt Demo.create_claim_request) 0%nat
      = (Some resp, None, 1%nat, [CreateClaim_call tt Demo.create_claim_request "did:issuer"]) /\
    resp = CreateClaim400JSONResponse (N400 "malformed url").
Proof.
  destruct (CreateClaim_error_mapping
              (Demo.failing (errors_New ErrMalformedURL "malformed url"))
              tt Demo.create_claim_request "did:issuer"
              (errors_New ErrMalformedURL "malformed url") 0%nat 1%nat
              eq_refl eq_refl)
    as (resp & Hrun & _ & _ & _ & Hurl & _).
  exists resp. split; [exact Hrun | exact (Hurl eq_refl eq_refl)].
Defined.

(** C2 as stated fails: a schema URL that cannot be loaded is answered with
    422, not 400; and an error that is a malformed-URL failure and a
    schema-load failure at once is answered with 422 as well, the
    schema-load test coming first. *)
Lemma CreateClaim_error_mapping_counterexample :
  run (Demo.failing schema_not_loadable) (CreateClaim tt Demo.create_claim_request) 0%nat
    = (Some (CreateClaim422JSONResponse (N422 "cannot load schema")), None, 1%nat,
       [CreateClaim_call tt Demo.create_claim_request "did:issuer"]) /\
  CreateClaim_status (CreateClaim422JSONResponse (N422 "cannot load schema")) <> 400 /\
  errors_Is malformed_and_not_loadable ErrMalformedURL = true /\
  run (Demo.failing malformed_and_not_loadable)
      (CreateClaim tt Demo.create_claim_request) 0%nat
    = (Some (CreateClaim422JSONResponse (N422 "malformed url, cannot load schema")),
       None, 1%nat, [CreateClaim_call tt Demo.create_claim_request "did:issuer"]) /\
  ~ (exists m,
       (run (Demo.failing schema_not_loadable)
            (CreateClaim tt Demo.create_claim_request) 0%nat).1.1
       = (Some (CreateClaim400JSONResponse m), None)).
Proof.
  repeat apply conj; try reflexivity.
  - discriminate.
  - intros (m & Hrun). discriminate Hrun.
Qed.

Lemma PublishIdentityState_error_mapping_witness :
  exists resp,
    run (Demo.failing (fmt_Errorf_w "publish: no states to process"
                         (errors_New ErrNoStatesToProcess "no states to process")))
        (PublishIdentityState tt {| pis_Identifier := "did:issuer" |}) 0%nat
      = (Some resp, None, 1%nat, [Publisher_PublishState tt "did:issuer"]) /\
    resp = PublishIdentityState200JSONResponse "publish: no states to process".
Proof.
  destruct (PublishIdentityState_error_mapping
              (Demo.failing (fmt_Errorf_w "publish: no states to process"
                               (errors_New ErrNoStatesToProcess "no states to process")))
              tt {| pis_Identifier := "did:issuer" |} "did:issuer"
              (fmt_Errorf_w "publish: no states to process"
                 (errors_New ErrNoStatesToProcess "no states to process"))
              0%nat 1%nat eq_refl eq_refl)
    as (resp & Hrun & Hnone & _).
  exists resp. split; [exact Hrun | exact (Hnone eq_refl)].
Defined.

Lemma RevokeClaim_claim_does_not_exist_witness :
  run (Demo.failing (errors_New ErrClaimDoesNotExist "claim does not exist"))
      (RevokeClaim tt {| rc_Identifier := "did:issuer"; rc_Nonce := 41 |}) 0%nat
    = (Some (RevokeClaim404JSONResponse (N404 "the claim does not exist")), None, 1%nat,
       [ClaimsService_Revoke tt "did:issuer" 41 ""]).
Proof.
  exact (proj1 (RevokeClaim_claim_does_not_exist
                  (Demo.failing (errors_New ErrClaimDoesNotExist "claim does not exist"))
                  tt {| rc_Identifier := "did:issuer"; rc_Nonce := 41 |}
                  (errors_New ErrClaimDoesNotExist "claim does not exist")
                  0%nat 1%nat eq_refl eq_refl)).
Defined.

Lemma CreateIdentity_propagates_error_witness :
  run (Demo.failing Demo.boom) (CreateIdentity Demo.server tt Demo.identity_request) 0%nat
    = (None, Some Demo.boom, 1%nat,
       [IdentityService_Create tt "polygonid" "polygon" "mumbai" "http://localhost:3001"]) /\
  structured (run (Demo.failing Demo.boom) (GetIdentities tt) 5%nat).1.1.
Proof.
  destruct (CreateIdentity_propagates_error (Demo.failing Demo.boom) Demo.server tt
              Demo.identity_request Demo.boom 0%nat 1%nat eq_refl eq_refl)
    as [Hrun Hothers].
  split; [exact Hrun |].
  exact (proj1 (proj2 (proj2 (proj2 (proj2 (proj2 (proj2 (Hothers tt 5%nat)))))))).
Defined.

Lemma unrecognized_error_outcomes_witness :
  run (Demo.failing Demo.boom) (CreateClaim tt Demo.create_claim_request) 0%nat
    = (Some (CreateClaim500JSONResponse (N500 "boom")), None, 1%nat,
       [CreateClaim_call tt Demo.create_claim_request "did:issuer"]) /\
  run (Demo.failing Demo.boom)
      (GetClaims tt {| gcs_Identifier := "did:issuer"; gcs_Params := Demo.no_params |}) 0%nat
    = (Some (GetClaims500JSONResponse (N500
         "there was an internal error trying to retrieve claims for the requested identifier")),
       None, 1%nat, [ClaimsService_GetAll tt "did:issuer" tt]).
Proof.
  destruct (unrecognized_error_outcomes (Demo.failing Demo.boom) tt Demo.boom 0%nat 1%nat)
    as (Hcreate & _ & _ & _ & _ & _ & Hlist & _).
  split.
  - exact (Hcreate Demo.create_claim_request "did:issuer"
             eq_refl eq_refl eq_refl eq_refl eq_refl eq_refl).
  - refine (Hlist {| gcs_Identifier := "did:issuer"; gcs_Params := Demo.no_params |}
              "did:issuer" tt _ eq_refl eq_refl eq_refl).
    discriminate.
Defined.

Lemma malformed_identifier_rejected_witness :
  run (Demo.working Demo.no_aux)
      (GetClaims tt {| gcs_Identifier := "not-a-did"; gcs_Params := Demo.no_params |}) 0%nat
    = (Some (GetClaims400JSONResponse (N400 "invalid did")), None, 0%nat, []) /\
  run (Demo.working Demo.no_aux)
      (PublishIdentityState tt {| pis_Identifier := "not-a-did" |}) 0%nat
    = (Some (PublishIdentityState400JSONResponse (N400 "invalid did")), None, 0%nat, []).
Proof.
  destruct (malformed_identifier_rejected (Demo.working Demo.no_aux) tt "not-a-did"
              (errors_New (ErrOther 0) "did must start with did:") 0%nat eq_refl)
    as (_ & _ & Hlist & Hpub & _).
  split; [exact (Hlist Demo.no_params) | exact Hpub].
Defined.

Lemma Agent_empty_body_witness :
  run (Demo.working Demo.no_aux) (Agent tt {| ag_req_Body := Some "" |}) 0%nat
    = (Some (Agent400JSONResponse (N400 "can not proceed with an empty request")),
       None, 0%nat, []).
Proof.
  exact (proj1 (Agent_empty_body (Demo.working Demo.no_aux) tt
                  {| ag_req_Body := Some "" |} 0%nat (or_intror eq_refl))).
Defined.

Example toGetClaims200Response_three :
  Id <$> toGetClaims200Response
           [Demo.credential "b"; Demo.credential "a"; Demo.credential "b"]
  = ["b"; "a"; "b"].
Proof. reflexivity. Qed.

Example siblings_loop_keeps_duplicates :
  siblings_loop (AllSiblings Demo.no_aux)
  = list_byte_of_string <$> ["5"; "0"; "5"; "9"].
Proof. vm_compute. reflexivity. Qed.

(** C1 as stated fails for RevokeClaim and GetRevocationStatus: with an
    identifier that does not parse, and with the empty one, the claims
    service is called and its answer decides the response (202 and 200
    here, 500 when it fails). *)
Lemma malformed_identifier_counterexample :
  ParseDID "not-a-did" = Fail (errors_New (ErrOther 0) "did must start with did:") /\
  run (Demo.working Demo.no_aux)
      (RevokeClaim tt {| rc_Identifier := "not-a-did"; rc_Nonce := 7 |}) 0%nat
    = (Some (RevokeClaim202JSONResponse "claim revocation request sent"), None, 1%nat,
       [ClaimsService_Revoke tt "not-a-did" 7 ""]) /\
  run (Demo.failing Demo.boom)
      (RevokeClaim tt {| rc_Identifier := "not-a-did"; rc_Nonce := 7 |}) 0%nat
    = (Some (RevokeClaim500JSONResponse (N500 "boom")), None, 1%nat,
       [ClaimsService_Revoke tt "not-a-did" 7 ""]) /\
  run (Demo.working Demo.no_aux)
      (GetRevocationStatus tt {| rs_Identifier := ""; rs_Nonce := 7 |}) 0%nat
    = (Some (GetRevocationStatus200JSONResponse (assemble (Demo.status Demo.no_aux))),
       None, 1%nat, [ClaimsService_GetRevocationStatus tt "" 7]) /\
  ~ (exists r,
       run (Demo.working Demo.no_aux)
           (RevokeClaim tt {| rc_Identifier := "not-a-did"; rc_Nonce := 7 |}) 0%nat
       = (Some r, None, 0%nat, []) /\ RevokeClaim_status r = 400).
Proof.
  repeat apply conj; try reflexivity.
  intros (r & Hrun & _). discriminate Hrun.
Qed.

(** C6 as stated fails for a whitespace-only body: a single space is handed
    to unpack, and with collaborators that accept it the answer is 200. *)
Lemma Agent_whitespace_counterexample :
  spec_empty_or_whitespace " " = true /\
  (run (Demo.working Demo.no_aux) (Agent tt {| ag_req_Body := Some " " |}) 0%nat).2
    = [Unpack_call " "; ClaimsService_Agent tt (list_byte_of_string " ")] /\
  (exists r,
     (run (Demo.working Demo.no_aux) (Agent tt {| ag_req_Body := Some " " |}) 0%nat).1.1
     = (Some (Agent200JSONResponse r), None)) /\
  ~ (exists r,
       run (Demo.working Demo.no_aux) (Agent tt {| ag_req_Body := Some " " |}) 0%nat
       = (Some (Agent400JSONResponse r), None, 0%nat, [])).
Proof.
  repeat apply conj; try reflexivity.
  - eexists. reflexivity.
  - intros (r & Hrun). discriminate Hrun.
Qed.

(** C7 as stated fails: GetClaims replaces the error's message by a fixed
    one, and Agent answers a collaborator error with 400. *)
Lemma unrecognized_error_counterexample :
  identities Demo.boom = [ErrOther 7] /\
  (exists m,
     run (Demo.failing Demo.boom)
         (GetClaims tt {| gcs_Identifier := "did:issuer"; gcs_Params := Demo.no_params |}) 0%nat
     = (Some (GetClaims500JSONResponse (N500 m)), None, 1%nat,
        [ClaimsService_GetAll tt "did:issuer" tt])
     /\ m <> Error Demo.boom) /\
  (exists r,
     (run (Demo.failing Demo.boom) (Agent tt {| ag_req_Body := Some "{}" |}) 0%nat).1.1
     = (Some r, None)
     /\ Agent_status r = 400) /\
  (run (Demo.failing Demo.boom) (CreateIdentity Demo.server tt Demo.identity_request) 0%nat).1.1
    = (None, Some Demo.boom).
Proof.
  repeat apply conj; try reflexivity.
  - eexists. split; [reflexivity | discriminate].
  - eexists. split; reflexivity.
Qed.

End ClaimExamples.

(** * Further properties of the controllers *)

Section SuccessPaths.
Context `{X : External}.
Context {W : Type} (h : Collaborators W).

(** X1: when the identity service fails with the wrong-DID-metadata error,
    possibly wrapped, CreateIdentity answers with 400 and the message of the
    error it was given, and returns a nil Go error. *)
Theorem CreateIdentity_wrong_metadata (s : Server) (ctx : Ctx)
        (request : CreateIdentityRequestObject) (err : error) (w w' : W) :
  h (IdentityService_Create ctx (Method (ci_Body_DidMetadata request))
       (Blockchain (ci_Body_DidMetadata request))
       (Network (ci_Body_DidMetadata request)) (ServerUrl (cfg s))) w = (Fail err, w') ->
  errors_Is err ErrWrongDIDMetada = true ->
  run h (CreateIdentity s ctx request) w
    = (Some (CreateIdentity400JSONResponse (N400 (Error err))), None, w',
       [IdentityService_Create ctx (Method (ci_Body_DidMetadata request))
          (Blockchain (ci_Body_DidMetadata request))
          (Network (ci_Body_DidMetadata request)) (ServerUrl (cfg s))]).
Proof.
  intros Hc Hi.
  rewrite (CreateIdentity_fail h s ctx request err w w' Hc). rewrite Hi. reflexivity.
Qed.

(** X2: when the identity service creates the identity, CreateIdentity
    answers with 201, the identifier of the new identity and a state whose
    eleven fields are those of the identity's state; the service is called
    once, with the three metadata fields of the body and the configured
    server URL. *)
Theorem CreateIdentity_created (s : Server) (ctx : Ctx)
        (request : CreateIdentityRequestObject) (identity : domain_Identity) (w w' : W) :
  h (IdentityService_Create ctx (Method (ci_Body_DidMetadata request))
       (Blockchain (ci_Body_DidMetadata request))
       (Network (ci_Body_DidMetadata request)) (ServerUrl (cfg s))) w = (Ok identity, w') ->
  exists st,
    run h (CreateIdentity s ctx request) w
      = (Some (CreateIdentity201JSONResponse (Some (id_Identifier identity)) (Some st)),
         None, w',
         [IdentityService_Create ctx (Method (ci_Body_DidMetadata request))
            (Blockchain (ci_Body_DidMetadata request))
            (Network (ci_Body_DidMetadata request)) (ServerUrl (cfg s))]) /\
    (BlockNumber st, BlockTimestamp st, ClaimsTreeRoot st, CreatedAt st, ModifiedAt st,
     PreviousState st, RevocationTreeRoot st, RootOfRoots st, State st, Status st, TxID st)
    = (st_BlockNumber (id_State identity), st_BlockTimestamp (id_State identity),
       st_ClaimsTreeRoot (id_State identity), st_CreatedAt (id_State identity),
       st_ModifiedAt (id_State identity), st_PreviousState (id_State identity),
       st_RevocationTreeRoot (id_State identity), st_RootOfRoots (id_State identity),
       st_State (id_State identity), st_Status (id_State identity),
       st_TxID (id_State identity)).
Proof.
  intros Hc. eexists. split.
  - unfold CreateIdentity. cbv zeta.
    rewrite (run_call_bind h _ _ w w' _ Hc). reflexivity.
  - reflexivity.
Qed.

(** X3: when the claims service issues the claim, CreateClaim answers with
    201 and the text form of the new claim's id; the service is called once,
    with the parsed DID and the body's fields. *)
Theorem CreateClaim_created (ctx : Ctx) (request : CreateClaimRequestObject)
        (did : DID) (resp : CreateClaimResponse) (w w' : W) :
  ParseDID (cc_Identifier request) = Ok did ->
  h (CreateClaim_call ctx request did) w = (Ok resp, w') ->
  run h (CreateClaim ctx request) w
    = (Some (CreateClaim201JSONResponse (UUID_String (ccr_ID resp))), None, w',
       [CreateClaim_call ctx request did]).
Proof.
  intros Hp Hc. unfold CreateClaim. rewrite Hp.
  rewrite (run_call_bind h _ _ w w' _ Hc). reflexivity.
Qed.

(** X4: RevokeClaim and GetRevocationStatus hand the request's int64 nonce
    to the claims service converted to uint64: a non-negative nonce goes
    through unchanged, a negative nonce [n] arrives as [n + 2^64]. *)
Theorem nonce_passed_as_uint64 (ctx : Ctx) (id : string) (nonce : Z) :
  - 2 ^ 63 <= nonce < 2 ^ 63 ->
  exists n k1 k2,
    RevokeClaim ctx {| rc_Identifier := id; rc_Nonce := nonce |}
      = Do (ClaimsService_Revoke ctx id n "") k1 /\
    GetRevocationStatus ctx {| rs_Identifier := id; rs_Nonce := nonce |}
      = Do (ClaimsService_GetRevocationStatus ctx id n) k2 /\
    0 <= n < 2 ^ 64 /\
    (0 <= nonce -> n = nonce) /\
    (nonce < 0 -> n = nonce + 2 ^ 64).
Proof.
  intros Hr. exists (uint64 nonce). eexists. eexists.
  split; [reflexivity |]. split; [reflexivity |].
  unfold uint64. repeat split.
  - apply Z.mod_pos_bound. lia.
  - apply Z.mod_pos_bound. lia.
  - intros Hn. apply Z.mod_small. lia.
  - intros Hn. symmetry. apply (Z.mod_unique_pos _ _ (-1)); lia.
Qed.

(** X5: when the claims service accepts the revocation, RevokeClaim answers
    with 202 and "claim revocation request sent". *)
Theorem RevokeClaim_accepted (ctx : Ctx) (request : RevokeClaimRequestObject) (w w' : W) :
  h (Revoke_call ctx request) w = (None, w') ->
  run h (RevokeClaim ctx request) w
    = (Some (RevokeClaim202JSONResponse "claim revocation request sent"), None, w',
       [Revoke_call ctx request]).
Proof.
  intros Hc. unfold RevokeClaim.
  rewrite (run_call_bind h _ _ w w' _ Hc). reflexivity.
Qed.

(** X6: a successful revocation-status response carries the issuer's four
    roots and the existence flag of the raw status unchanged, and its
    sibling field is never nil: a proof without siblings gives the empty
    sequence. *)
Theorem GetRevocationStatus_roots_and_existence (ctx : Ctx)
        (request : GetRevocationStatusRequestObject)
        (rs : RevocationStatus) (w w' : W) :
  h (GetRevocationStatus_call ctx request) w = (Ok rs, w') ->
  exists resp,
    run h (GetRevocationStatus ctx request) w
      = (Some (GetRevocationStatus200JSONResponse resp), None, w',
         [GetRevocationStatus_call ctx request]) /\
    iss_State (resp_Issuer resp) = ts_State (Issuer rs) /\
    iss_ClaimsTreeRoot (resp_Issuer resp) = ts_ClaimsTreeRoot (Issuer rs) /\
    iss_RevocationTreeRoot (resp_Issuer resp) = ts_RevocationTreeRoot (Issuer rs) /\
    iss_RootOfRoots (resp_Issuer resp) = ts_RootOfRoots (Issuer rs) /\
    mtp_Existence (resp_Mtp resp) = Existence (MTP rs) /\
    is_Some (mtp_Siblings (resp_Mtp resp)) /\
    (AllSiblings (MTP rs) = [] -> mtp_Siblings (resp_Mtp resp) = Some []).
Proof.
  intros Hc. exists (assemble rs). split.
  - exact (GetRevocationStatus_ok h ctx request rs w w' Hc).
  - simpl. repeat split; try reflexivity.
    + eexists. reflexivity.
    + intros ->. reflexivity.
Qed.

(** X7: with a valid DID, GetClaim answers an empty claim id with 400
    "can not proceed with an empty claim id" and a claim id that is not a
    UUID with 400 "invalid claim id"; no collaborator is called. *)
Theorem GetClaim_invalid_claim_id (ctx : Ctx) (request : GetClaimRequestObject)
        (did : DID) (w : W) :
  gc_Identifier request <> "" ->
  ParseDID (gc_Identifier request) = Ok did ->
  gc_Id request = "" \/ (exists e, uuid_Parse (gc_Id request) = Fail e) ->
  run h (GetClaim ctx request) w
    = (Some (GetClaim400JSONResponse
               (N400 (if decide (gc_Id request = "")
                      then "can not proceed with an empty claim id"
                      else "invalid claim id"))), None, w, []).
Proof.
  intros Hne Hp Hid. unfold GetClaim.
  rewrite (decide_False _ _ Hne), Hp.
  destruct (decide (gc_Id request = "")) as [He | He]; [reflexivity |].
  destruct Hid as [Hid | [e Hu]]; [contradiction |].
  rewrite Hu. reflexivity.
Qed.

(** X8: when the claim lookup fails with the claim-not-found error, GetClaim
    answers with 404 and the error's message; the schema service is not
    called. *)
Theorem GetClaim_not_found (ctx : Ctx) (request : GetClaimRequestObject)
        (did : DID) (clID : UUID) (err : error) (w w' : W) :
  gc_Identifier request <> "" ->
  ParseDID (gc_Identifier request) = Ok did ->
  gc_Id request <> "" ->
  uuid_Parse (gc_Id request) = Ok clID ->
  h (ClaimsService_GetByID ctx did clID) w = (Fail err, w') ->
  errors_Is err ErrClaimNotFound = true ->
  run h (GetClaim ctx request) w
    = (Some (GetClaim404JSONResponse (N404 (Error err))), None, w',
       [ClaimsService_GetByID ctx did clID]).
Proof.
  intros Hne Hp Hid Hu Hc Hi.
  rewrite (GetClaim_fail h ctx request did clID err w w' Hne Hp Hid Hu Hc).
  unfold GetClaim_on_error. rewrite Hi. reflexivity.
Qed.

(** X9: when the claim is found and converts, GetClaim answers with 200 and
    the shaping of the converted credential; the claim lookup is called
    first, with the parsed DID and UUID, then the schema service, with the
    claim the lookup returned. *)
Theorem GetClaim_found (ctx : Ctx) (request : GetClaimRequestObject)
        (did : DID) (clID : UUID) (claim : Claim) (w3c : W3CCredential) (w w1 w2 : W) :
  gc_Identifier request <> "" ->
  ParseDID (gc_Identifier request) = Ok did ->
  gc_Id request <> "" ->
  uuid_Parse (gc_Id request) = Ok clID ->
  h (ClaimsService_GetByID ctx did clID) w = (Ok claim, w1) ->
  h (SchemaService_FromClaimModelToW3CCredential claim) w1 = (Ok w3c, w2) ->
  run h (GetClaim ctx request) w
    = (Some (GetClaim200JSONResponse (toGetClaim200Response w3c)), None, w2,
       [ClaimsService_GetByID ctx did clID;
        SchemaService_FromClaimModelToW3CCredential claim]).
Proof.
  intros Hne Hp Hid Hu Hc1 Hc2. unfold GetClaim.
  rewrite (decide_False _ _ Hne), Hp, (decide_False _ _ Hid), Hu.
  rewrite (run_call_bind h _ _ w w1 _ Hc1).
  rewrite (run_call_bind h _ _ w1 w2 _ Hc2). reflexivity.
Qed.

(** X10: with a valid DID, when the filter cannot be built from the query
    parameters GetClaims answers with 400 and the filter error's message; no
    collaborator is called. *)
Theorem GetClaims_invalid_filter (ctx : Ctx) (request : GetClaimsRequestObject)
        (did : DID) (e : error) (w : W) :
  gcs_Identifier request <> "" ->
  ParseDID (gcs_Identifier request) = Ok did ->
  NewClaimsFilter (SchemaHash (gcs_Params request)) (SchemaType (gcs_Params request))
    (Subject (gcs_Params request)) (QueryField (gcs_Params request))
    (Self (gcs_Params request)) (Revoked (gcs_Params request)) = Fail e ->
  run h (GetClaims ctx request) w
    = (Some (GetClaims400JSONResponse (N400 (Error e))), None, w, []).
Proof.
  intros Hne Hp Hf. unfold GetClaims.
  rewrite (decide_False _ _ Hne), Hp. cbv zeta. rewrite Hf. reflexivity.
Qed.

(** X11: when the claims service lists the claims, GetClaims answers with
    200 and one shaped credential per listed claim, in the order of the
    listing; an empty listing gives the empty sequence. *)
Theorem GetClaims_listed (ctx : Ctx) (request : GetClaimsRequestObject)
        (did : DID) (filter : ports_Filter) (claims : list W3CCredential) (w w' : W) :
  gcs_Identifier request <> "" ->
  ParseDID (gcs_Identifier request) = Ok did ->
  NewClaimsFilter (SchemaHash (gcs_Params request)) (SchemaType (gcs_Params request))
    (Subject (gcs_Params request)) (QueryField (gcs_Params request))
    (Self (gcs_Params request)) (Revoked (gcs_Params request)) = Ok filter ->
  h (ClaimsService_GetAll ctx did filter) w = (Ok claims, w') ->
  exists shaped,
    run h (GetClaims ctx request) w
      = (Some (GetClaims200JSONResponse shaped), None, w',
         [ClaimsService_GetAll ctx did filter]) /\
    length shaped = length claims /\
    (forall i : nat, shaped !! i = toGetClaim200Response <$> claims !! i) /\
    (claims = [] -> shaped = []).
Proof.
  intros Hne Hp Hf Hc. exists (toGetClaims200Response claims). split.
  - unfold GetClaims.
    rewrite (decide_False _ _ Hne), Hp. cbv zeta. rewrite Hf.
    rewrite (run_call_bind h _ _ w w' _ Hc). reflexivity.
  - rewrite toGetClaims200Response_map. repeat split.
    + apply length_fmap.
    + intros i. apply list_lookup_fmap.
    + intros ->. reflexivity.
Qed.

(** X12: when the body unpacks, translates and is handled, Agent answers
    with 200 and an envelope whose body, sender, id, thread id, recipient,
    media type and message type are those of the handler's answer; unpack is
    called first, on the bytes of the body with the ZKP media type, then the
    agent handler, on the request built from the unpacked message. *)
Theorem Agent_dispatch (ctx : Ctx) (body : string) (msg : BasicMessage)
        (req : ports_AgentRequest) (agent : domain_Agent) (w w1 w2 : W) :
  body <> "" ->
  h (PackageManager_UnpackWithType MediaTypeZKPMessage (list_byte_of_string body)) w
    = (Ok msg, w1) ->
  NewAgentRequest msg = Ok req ->
  h (ClaimsService_Agent ctx req) w1 = (Ok agent, w2) ->
  run h (Agent ctx {| ag_req_Body := Some body |}) w
    = (Some (Agent200JSONResponse
               {| ar_Body := ag_Body agent;
                  ar_From := ag_From agent;
                  ar_Id := ag_ID agent;
                  ar_ThreadID := ag_ThreadID agent;
                  ar_To := ag_To agent;
                  ar_Typ := ag_Typ agent;
                  ar_Type := ag_Type agent |}), None, w2,
       [PackageManager_UnpackWithType MediaTypeZKPMessage (list_byte_of_string body);
        ClaimsService_Agent ctx req]).
Proof.
  intros Hne Hc1 Hreq Hc2. unfold Agent. cbn [ag_req_Body].
  rewrite (decide_False _ _ Hne).
  rewrite (run_call_bind h _ _ w w1 _ Hc1). rewrite Hreq.
  rewrite (run_call_bind h _ _ w1 w2 _ Hc2). reflexivity.
Qed.

(** X13: when the body unpacks but no agent request can be built from the
    unpacked message, Agent answers with 400 and the message of that
    failure; the agent handler is not called. *)
Theorem Agent_bad_envelope (ctx : Ctx) (body : string) (msg : BasicMessage)
        (e : error) (w w1 : W) :
  body <> "" ->
  h (PackageManager_UnpackWithType MediaTypeZKPMessage (list_byte_of_string body)) w
    = (Ok msg, w1) ->
  NewAgentRequest msg = Fail e ->
  run h (Agent ctx {| ag_req_Body := Some body |}) w
    = (Some (Agent400JSONResponse (N400 (Error e))), None, w1,
       [PackageManager_UnpackWithType MediaTypeZKPMessage (list_byte_of_string body)]).
Proof.
  intros Hne Hc1 Hreq. unfold Agent. cbn [ag_req_Body].
  rewrite (decide_False _ _ Hne).
  rewrite (run_call_bind h _ _ w w1 _ Hc1). rewrite Hreq. reflexivity.
Qed.

(** X14: when the publisher publishes the state, PublishIdentityState
    answers with 202 and the three roots, the state and the transaction id
    of the published state. *)
Theorem PublishIdentityState_published (ctx : Ctx)
        (request : PublishIdentityStateRequestObject) (did : DID)
        (publishedState : domain_PublishedState) (w w' : W) :
  ParseDID (pis_Identifier request) = Ok did ->
  h (Publisher_PublishState ctx did) w = (Ok publishedState, w') ->
  run h (PublishIdentityState ctx request) w
    = (Some (PublishIdentityState202JSONResponse
               {| pub_ClaimsTreeRoot := ps_ClaimsTreeRoot publishedState;
                  pub_RevocationTreeRoot := ps_RevocationTreeRoot publishedState;
                  pub_RootOfRoots := ps_RootOfRoots publishedState;
                  pub_State := ps_State publishedState;
                  pub_TxID := ps_TxID publishedState |}), None, w',
       [Publisher_PublishState ctx did]).
Proof.
  intros Hp Hc. unfold PublishIdentityState. rewrite Hp.
  rewrite (run_call_bind h _ _ w w' _ Hc). reflexivity.
Qed.

End SuccessPaths.

Section Bounds.
Context `{X : External}.

Lemma AtMost_run {W R : Type} (n : nat) (p : Prog R) :
  AtMost n p ->
  forall (h : Collaborators W) (w : W), (length (run h p w).2 <= n)%nat.
Proof.
  induction 1 as [n r | n c k _ IH]; intros h w.
  - simpl. lia.
  - simpl. destruct (h c w) as [a w1].
    specialize (IH a h w1). destruct (run h (k a) w1) as [[r w2] tr].
    simpl in *. lia.
Qed.

Lemma CreateIdentity_AtMost (s : Server) (ctx : Ctx) (r : CreateIdentityRequestObject) :
  AtMost 1 (CreateIdentity s ctx r).
Proof. unfold CreateIdentity. at_most. Qed.

Lemma CreateClaim_AtMost (ctx : Ctx) (r : CreateClaimRequestObject) :
  AtMost 1 (CreateClaim ctx r).
Proof. unfold CreateClaim. at_most. Qed.

Lemma RevokeClaim_AtMost (ctx : Ctx) (r : RevokeClaimRequestObject) :
  AtMost 1 (RevokeClaim ctx r).
Proof. unfold RevokeClaim. at_most. Qed.

Lemma GetRevocationStatus_AtMost (ctx : Ctx) (r : GetRevocationStatusRequestObject) :
  AtMost 1 (GetRevocationStatus ctx r).
Proof. unfold GetRevocationStatus. at_most. Qed.

Lemma GetClaim_AtMost (ctx : Ctx) (r : GetClaimRequestObject) :
  AtMost 2 (GetClaim ctx r).
Proof. unfold GetClaim. at_most. Qed.

Lemma GetClaims_AtMost (ctx : Ctx) (r : GetClaimsRequestObject) :
  AtMost 1 (GetClaims ctx r).
Proof. unfold GetClaims. at_most. Qed.

Lemma GetIdentities_AtMost (ctx : Ctx) : AtMost 1 (GetIdentities ctx).
Proof. unfold GetIdentities. at_most. Qed.

Lemma Agent_AtMost (ctx : Ctx) (r : AgentRequestObject) :
  AtMost 2 (Agent ctx r).
Proof. unfold Agent. at_most. Qed.

Lemma PublishIdentityState_AtMost (ctx : Ctx) (r : PublishIdentityStateRequestObject) :
  AtMost 1 (PublishIdentityState ctx r).
Proof. unfold PublishIdentityState. at_most. Qed.

(** X15: nothing is retried: whatever the collaborators answer, GetClaim and
    Agent make at most two collaborator calls per request and every other
    controller at most one. *)
Theorem controllers_call_bounds {W : Type} (h : Collaborators W) (ctx : Ctx) (w : W) :
  (forall s r, (length (run h (CreateIdentity s ctx r) w).2 <= 1)%nat) /\
  (forall r, (length (run h (CreateClaim ctx r) w).2 <= 1)%nat) /\
  (forall r, (length (run h (RevokeClaim ctx r) w).2 <= 1)%nat) /\
  (forall r, (length (run h (GetRevocationStatus ctx r) w).2 <= 1)%nat) /\
  (forall r, (length (run h (GetClaims ctx r) w).2 <= 1)%nat) /\
  (length (run h (GetIdentities ctx) w).2 <= 1)%nat /\
  (forall r, (length (run h (PublishIdentityState ctx r) w).2 <= 1)%nat) /\
  (forall r, (length (run h (GetClaim ctx r) w).2 <= 2)%nat) /\
  (forall r, (length (run h (Agent ctx r) w).2 <= 2)%nat).
Proof.
  repeat split; intros; apply AtMost_run;
    auto using CreateIdentity_AtMost, CreateClaim_AtMost, RevokeClaim_AtMost,
      GetRevocationStatus_AtMost, GetClaim_AtMost, GetClaims_AtMost,
      GetIdentities_AtMost, Agent_AtMost, PublishIdentityState_AtMost.
Qed.

(** X16: shaping a listing that is two listings one after the other gives
    the shaped first listing followed by the shaped second one. *)
Theorem toGetClaims200Response_app (first second : list W3CCredential) :
  toGetClaims200Response (first ++ second)
  = (toGetClaims200Response first ++ toGetClaims200Response second)%list.
Proof. rewrite !toGetClaims200Response_map. apply fmap_app. Qed.

(** X17: when the tree's element encoding tells elements apart, the sibling
    sequence of a response determines the raw sibling list: two proofs with
    the same encoded siblings have the same siblings. *)
Theorem siblings_loop_inj (first second : list Hash) :
  (forall a b : Hash, encode a = encode b -> a = b) ->
  siblings_loop first = siblings_loop second ->
  first = second.
Proof.
  intros Hinj. rewrite !siblings_loop_map.
  revert second. induction first as [| a first IH]; intros [| b second] Heq;
    simpl in Heq; try discriminate; [reflexivity |].
  injection Heq as Hab Hrest.
  f_equal; [apply Hinj; exact Hab | apply IH; exact Hrest].
Qed.

End Bounds.

(** ** The static documentation routes *)

Section StaticFiles.
Variable fs : FileSystem.

(** X18: when the file cannot be read, writeFile does not return after
    writing the 404: it goes on to set the content type, write status 200
    and write the bytes it has.  The client gets status 404 and the body
    "not found" followed by whatever bytes the failed read returned (none,
    when it returned nil); the later status 200 is ignored, and the
    text/html content type comes too late: the Content-Type the client
    receives is the one sniffed from that body. *)
Theorem writeFile_missing (DetectContentType : ByteArray -> string)
        (path : string) (f : ByteArray) (e : error) :
  fs path = (f, Some e) ->
  writeFile fs path
    = [WriteHeader 404; Write (list_byte_of_string "not found");
       Header_Set "Content-Type" "text/html; charset=UTF-8";
       WriteHeader 200; Write f] /\
  sent_status (sent (writeFile fs path)) = 404 /\
  sent_body (sent (writeFile fs path)) = (list_byte_of_string "not found" ++ f)%list /\
  client_Content_Type DetectContentType (sent (writeFile fs path))
    = Some (DetectContentType (take sniffLen (list_byte_of_string "not found" ++ f)%list)) /\
  (f = [] -> sent_body (sent (writeFile fs path)) = list_byte_of_string "not found").
Proof.
  intros Hf. unfold writeFile. rewrite Hf.
  split; [reflexivity |]. split; [reflexivity |]. split; [reflexivity |].
  split; [reflexivity |].
  intros ->. reflexivity.
Qed.

(** X19: when the file is read, the client gets status 200, the content
    type "text/html; charset=UTF-8" and the file's bytes as the body,
    whatever the file is. *)
Theorem writeFile_found (path : string) (f : ByteArray) :
  fs path = (f, None) ->
  sent_status (sent (writeFile fs path)) = 200 /\
  sent_header (sent (writeFile fs path)) !! "Content-Type"
    = Some "text/html; charset=UTF-8" /\
  sent_body (sent (writeFile fs path)) = f.
Proof.
  intros Hf. unfold writeFile. rewrite Hf.
  repeat split.
Qed.

(** X20: after RegisterStatic, GET "/" is served from api/spec.html and GET
    "/static/docs/api/api.yaml" from api/api.yaml; when the YAML file is
    read it is sent with status 200 and the text/html content type; every
    other route of the mux is as it was. *)
Theorem RegisterStatic_routes (mux : Mux) :
  (exists handlerFn,
     RegisterStatic mux !! ("GET", "/") = Some handlerFn /\
     handlerFn fs = writeFile fs "api/spec.html") /\
  (exists handlerFn,
     RegisterStatic mux !! ("GET", "/static/docs/api/api.yaml") = Some handlerFn /\
     handlerFn fs = writeFile fs "api/api.yaml" /\
     (forall f, fs "api/api.yaml" = (f, None) ->
        sent_status (sent (handlerFn fs)) = 200 /\
        sent_header (sent (handlerFn fs)) !! "Content-Type"
          = Some "text/html; charset=UTF-8" /\
        sent_body (sent (handlerFn fs)) = f)) /\
  (forall method pattern,
     (method, pattern) <> ("GET", "/") ->
     (method, pattern) <> ("GET", "/static/docs/api/api.yaml") ->
     RegisterStatic mux !! (method, pattern) = mux !! (method, pattern)).
Proof.
  unfold RegisterStatic, Mux_Get, Mux in *. repeat apply conj.
  - exists documentation. split; [| reflexivity].
    rewrite lookup_insert_ne by discriminate. apply lookup_insert_eq.
  - exists swagger. split; [apply lookup_insert_eq |]. split; [reflexivity |].
    intros f Hf. unfold swagger. apply writeFile_found. exact Hf.
  - intros method pattern H1 H2.
    rewrite lookup_insert_ne by congruence.
    rewrite lookup_insert_ne by congruence. reflexivity.
Qed.

End StaticFiles.

(** ** The further properties on concrete requests *)

Section MoreExamples.
#[local] Existing Instance Demo.libs.

Lemma CreateIdentity_wrong_metadata_witness :
  run (Demo.failing (fmt_Errorf_w "create: wrong DID Metadata"
                       (errors_New ErrWrongDIDMetada "wrong DID Metadata")))
      (CreateIdentity Demo.server tt Demo.identity_request) 0%nat
    = (Some (CreateIdentity400JSONResponse (N400 "create: wrong DID Metadata")), None, 1%nat,
       [IdentityService_Create tt "polygonid" "polygon" "mumbai" "http://localhost:3001"]).
Proof.
  exact (CreateIdentity_wrong_metadata
           (Demo.failing (fmt_Errorf_w "create: wrong DID Metadata"
                            (errors_New ErrWrongDIDMetada "wrong DID Metadata")))
           Demo.server tt Demo.identity_request
           (fmt_Errorf_w "create: wrong DID Metadata"
              (errors_New ErrWrongDIDMetada "wrong DID Metadata"))
           0%nat 1%nat eq_refl eq_refl).
Defined.

Lemma CreateIdentity_created_witness :
  exists st,
    (run (Demo.working Demo.no_aux)
         (CreateIdentity Demo.server tt Demo.identity_request) 0%nat).1.1
      = (Some (CreateIdentity201JSONResponse (Some "did:new") (Some st)), None) /\
    Status st = "created".
Proof.
  destruct (CreateIdentity_created (Demo.working Demo.no_aux) Demo.server tt
              Demo.identity_request
              {| id_Identifier := "did:new"; id_State := Demo.state |}
              0%nat 1%nat eq_refl)
    as (st & Hrun & Hfields).
  exists st. split.
  - rewrite Hrun. reflexivity.
  - injection Hfields as _ _ _ _ _ _ _ _ _ Hstatus _. exact Hstatus.
Defined.

Lemma CreateClaim_created_witness :
  run (Demo.working Demo.no_aux) (CreateClaim tt Demo.create_claim_request) 0%nat
    = (Some (CreateClaim201JSONResponse "00000000-0000-0000-0000-000000000001"), None,
       1%nat, [CreateClaim_call tt Demo.create_claim_request "did:issuer"]).
Proof.
  exact (CreateClaim_created (Demo.working Demo.no_aux) tt Demo.create_claim_request
           "did:issuer" {| ccr_ID := "00000000-0000-0000-0000-000000000001" |}
           0%nat 1%nat eq_refl eq_refl).
Defined.

Lemma nonce_passed_as_uint64_witness :
  exists n k1 k2,
    RevokeClaim tt {| rc_Identifier := "did:issuer"; rc_Nonce := -1 |}
      = Do (ClaimsService_Revoke tt "did:issuer" n "") k1 /\
    GetRevocationStatus tt {| rs_Identifier := "did:issuer"; rs_Nonce := -1 |}
      = Do (ClaimsService_GetRevocationStatus tt "did:issuer" n) k2 /\
    n = 18446744073709551615.
Proof.
  destruct (nonce_passed_as_uint64 (X := Demo.libs) tt "did:issuer" (-1)
              ltac:(lia))
    as (n & k1 & k2 & H1 & H2 & _ & _ & Hneg).
  exists n, k1, k2. split; [exact H1 |]. split; [exact H2 |].
  rewrite (Hneg ltac:(lia)). reflexivity.
Defined.

Lemma RevokeClaim_accepted_witness :
  run (Demo.working Demo.no_aux)
      (RevokeClaim tt {| rc_Identifier := "did:issuer"; rc_Nonce := 41 |}) 0%nat
    = (Some (RevokeClaim202JSONResponse "claim revocation request sent"), None, 1%nat,
       [ClaimsService_Revoke tt "did:issuer" 41 ""]).
Proof.
  exact (RevokeClaim_accepted (Demo.working Demo.no_aux) tt
           {| rc_Identifier := "did:issuer"; rc_Nonce := 41 |} 0%nat 1%nat eq_refl).
Defined.

Lemma GetRevocationStatus_roots_and_existence_witness :
  exists resp,
    (run (Demo.working Demo.absent_with_aux)
         (GetRevocationStatus tt Demo.revocation_request) 0%nat).1.1
      = (Some (GetRevocationStatus200JSONResponse resp), None) /\
    iss_State (resp_Issuer resp) = Some "s" /\
    mtp_Existence (resp_Mtp resp) = false.
Proof.
  destruct (GetRevocationStatus_roots_and_existence
              (Demo.working Demo.absent_with_aux) tt Demo.revocation_request
              (Demo.status Demo.absent_with_aux) 0%nat 1%nat eq_refl)
    as (resp & Hrun & Hstate & _ & _ & _ & Hex & _).
  exists resp. split; [rewrite Hrun; reflexivity |].
  split; [exact Hstate | exact Hex].
Defined.

Lemma GetClaim_invalid_claim_id_witness :
  run (Demo.working Demo.no_aux)
      (GetClaim tt {| gc_Identifier := "did:issuer"; gc_Id := "42" |}) 0%nat
    = (Some (GetClaim400JSONResponse (N400 "invalid claim id")), None, 0%nat, []).
Proof.
  refine (GetClaim_invalid_claim_id (Demo.working Demo.no_aux) tt
            {| gc_Identifier := "did:issuer"; gc_Id := "42" |} "did:issuer" 0%nat
            _ eq_refl (or_intror (ex_intro _ _ eq_refl))).
  discriminate.
Defined.

Lemma GetClaim_not_found_witness :
  run (Demo.failing (errors_New ErrClaimNotFound "claim not found"))
      (GetClaim tt {| gc_Identifier := "did:issuer"; gc_Id := claim_id |}) 0%nat
    = (Some (GetClaim404JSONResponse (N404 "claim not found")), None, 1%nat,
       [ClaimsService_GetByID tt "did:issuer" claim_id]).
Proof.
  refine (GetClaim_not_found (Demo.failing (errors_New ErrClaimNotFound "claim not found"))
            tt {| gc_Identifier := "did:issuer"; gc_Id := claim_id |}
            "did:issuer" claim_id (errors_New ErrClaimNotFound "claim not found")
            0%nat 1%nat _ eq_refl _ eq_refl eq_refl eq_refl); discriminate.
Defined.

Lemma GetClaim_found_witness :
  run (Demo.working Demo.no_aux)
      (GetClaim tt {| gc_Identifier := "did:issuer"; gc_Id := claim_id |}) 0%nat
    = (Some (GetClaim200JSONResponse (toGetClaim200Response (Demo.credential claim_id))),
       None, 2%nat,
       [ClaimsService_GetByID tt "did:issuer" claim_id;
        SchemaService_FromClaimModelToW3CCredential claim_id]).
Proof.
  refine (GetClaim_found (Demo.working Demo.no_aux)
            tt {| gc_Identifier := "did:issuer"; gc_Id := claim_id |}
            "did:issuer" claim_id claim_id (Demo.credential claim_id)
            0%nat 1%nat 2%nat _ eq_refl _ eq_refl eq_refl eq_refl); discriminate.
Defined.

Lemma GetClaims_listed_witness :
  exists shaped,
    (run (Demo.working Demo.no_aux)
         (GetClaims tt {| gcs_Identifier := "did:issuer"; gcs_Params := Demo.no_params |})
         0%nat).1.1
      = (Some (GetClaims200JSONResponse shaped), None) /\
    length shaped = 2%nat.
Proof.
  destruct (GetClaims_listed (Demo.working Demo.no_aux) tt
              {| gcs_Identifier := "did:issuer"; gcs_Params := Demo.no_params |}
              "did:issuer" tt [Demo.credential "a"; Demo.credential "b"] 0%nat 1%nat
              ltac:(discriminate) eq_refl eq_refl eq_refl)
    as (shaped & Hrun & Hlen & _).
  exists shaped. split; [rewrite Hrun; reflexivity | exact Hlen].
Defined.

Lemma Agent_dispatch_witness :
  exists r,
    run (Demo.working Demo.no_aux) (Agent tt {| ag_req_Body := Some "{}" |}) 0%nat
      = (Some (Agent200JSONResponse r), None, 2%nat,
         [Unpack_call "{}"; ClaimsService_Agent tt (list_byte_of_string "{}")]) /\
    ar_ThreadID r = "t".
Proof.
  eexists. split.
  - refine (Agent_dispatch (Demo.working Demo.no_aux) tt "{}" (list_byte_of_string "{}")
              (list_byte_of_string "{}") Demo.agent 0%nat 1%nat 2%nat
              _ eq_refl eq_refl eq_refl).
    discriminate.
  - reflexivity.
Defined.

Lemma PublishIdentityState_published_witness :
  exists r,
    run (Demo.working Demo.no_aux)
        (PublishIdentityState tt {| pis_Identifier := "did:issuer" |}) 0%nat
      = (Some (PublishIdentityState202JSONResponse r), None, 1%nat,
         [Publisher_PublishState tt "did:issuer"]) /\
    pub_TxID r = "0x1".
Proof.
  eexists. split.
  - exact (PublishIdentityState_published (Demo.working Demo.no_aux) tt
             {| pis_Identifier := "did:issuer" |} "did:issuer" Demo.published
             0%nat 1%nat eq_refl eq_refl).
  - reflexivity.
Defined.

Lemma decimal_text_inj (a b : Z) :
  (Demo.decimal_text a).1 = (Demo.decimal_text b).1 -> a = b.
Proof.
  unfold Demo.decimal_text. simpl. intros Heq.
  apply (inj pretty).
  rewrite <- (string_of_list_byte_of_string (pretty a)),
          <- (string_of_list_byte_of_string (pretty b)).
  rewrite Heq. reflexivity.
Qed.

Lemma siblings_loop_inj_witness :
  siblings_loop [5; 0; 5] = siblings_loop ([5] ++ [0; 5])
  /\ [5; 0; 5] = ([5] ++ [0; 5])%list.
Proof.
  split; [reflexivity |].
  exact (siblings_loop_inj (X := Demo.libs) [5; 0; 5]
           ([5] ++ [0; 5])%list decimal_text_inj eq_refl).
Defined.

Lemma writeFile_missing_witness :
  sent_status (sent (swagger Disk.page_only)) = 404 /\
  sent_body (sent (swagger Disk.page_only)) = list_byte_of_string "not found" /\
  client_Content_Type Disk.detect (sent (swagger Disk.page_only))
    = Some "text/plain; charset=utf-8".
Proof.
  destruct (writeFile_missing Disk.page_only Disk.detect "api/api.yaml" []
              (errors_New (ErrOther 6) "open: no such file or directory") eq_refl)
    as (_ & Hstatus & _ & Htype & Hbody).
  split; [exact Hstatus |]. split; [exact (Hbody eq_refl) |].
  unfold swagger. rewrite Htype. reflexivity.
Defined.

Lemma writeFile_found_witness :
  sent_status (sent (documentation Disk.page_only)) = 200 /\
  sent_header (sent (documentation Disk.page_only)) !! "Content-Type"
    = Some "text/html; charset=UTF-8" /\
  sent_body (sent (documentation Disk.page_only)) = list_byte_of_string "<html>docs</html>".
Proof.
  exact (writeFile_found Disk.page_only "api/spec.html"
           (list_byte_of_string "<html>docs</html>") eq_refl).
Defined.

Lemma RegisterStatic_routes_witness :
  RegisterStatic Disk.with_status !! ("GET", "/status") = Some documentation /\
  exists handlerFn,
    RegisterStatic Disk.with_status !! ("GET", "/static/docs/api/api.yaml")
      = Some handlerFn /\
    sent_header (sent (handlerFn Disk.both)) !! "Content-Type"
      = Some "text/html; charset=UTF-8" /\
    sent_body (sent (handlerFn Disk.both)) = list_byte_of_string "openapi: 3.0.0".
Proof.
  destruct (RegisterStatic_routes Disk.both Disk.with_status)
    as (_ & (handlerFn & Hroute & _ & Hserved) & Hother).
  split.
  - rewrite (Hother "GET" "/status") by discriminate. reflexivity.
  - exists handlerFn. split; [exact Hroute |].
    destruct (Hserved (list_byte_of_string "openapi: 3.0.0") eq_refl)
      as (_ & Htype & Hbody).
    split; [exact Htype | exact Hbody].
Defined.

End MoreExamples.

Section StrictExamples.
#[local] Existing Instance Strict.libs.

Lemma GetClaims_invalid_filter_witness :
  run Strict.unpacking
      (GetClaims tt {| gcs_Identifier := "did:issuer"; gcs_Params := Demo.no_params |}) 0%nat
    = (Some (GetClaims400JSONResponse (N400 "invalid schema hash")), None, 0%nat, []).
Proof.
  refine (GetClaims_invalid_filter Strict.unpacking tt
            {| gcs_Identifier := "did:issuer"; gcs_Params := Demo.no_params |}
            "did:issuer" (errors_New (ErrOther 3) "invalid schema hash") 0%nat
            _ eq_refl eq_refl).
  discriminate.
Defined.

Lemma Agent_bad_envelope_witness :
  run Strict.unpacking (Agent tt {| ag_req_Body := Some "{}" |}) 0%nat
    = (Some (Agent400JSONResponse (N400 "invalid type")), None, 1%nat,
       [Unpack_call "{}"]).
Proof.
  refine (Agent_bad_envelope Strict.unpacking tt "{}" (list_byte_of_string "{}")
            (errors_New (ErrOther 4) "invalid type") 0%nat 1%nat _ eq_refl eq_refl).
  discriminate.
Defined.

End StrictExamples.
